(** * NeuroLink demo server: provider selection and fallback

    A shallow embedding of the orchestration code of [src/server.js]:
    the provider tables, [isProviderConfigured], [getModelForProvider],
    [testProviderAvailability], [generateWithProvider], the usage
    counters and the [/api/generate] route.

    Conventions.
    - JavaScript strings are [string]; every pattern the code searches
      for is ASCII, so matching on bytes and on UTF-16 code units agree.
    - [process.env] is a partial map from names to strings.
    - The provider library ([createAIProvider] followed by [generate]) and
      the HTTP probe of the local Ollama daemon are external: they are
      transitions on an abstract [World], given as section variables.
    - Counters are natural numbers (they stay far below 2^53 in JS).
    - [console.log] output is not part of the model. *)

From Stdlib Require Import String Ascii List Bool Arith ZArith Lia.
From Stdlib Require Import DecimalString.
Import ListNotations.
Local Open Scope string_scope.

(** ** JavaScript string helpers *)

Module JsString.

(** [hay.includes(needle)] *)
Fixpoint includes (needle hay : string) : bool :=
  prefix needle hay
  || match hay with
     | EmptyString => false
     | String _ rest => includes needle rest
     end.

(** [xs.join(sep)] *)
Definition join (sep : string) (xs : list string) : string :=
  String.concat sep xs.

(** Truthiness of a string: only the empty string is falsy. *)
Definition nonEmpty (s : string) : bool :=
  match s with
  | EmptyString => false
  | String _ _ => true
  end.

(** Truthiness of a possibly undefined string, as in [!!process.env[k]]. *)
Definition truthy (v : option string) : bool :=
  match v with
  | Some s => nonEmpty s
  | None => false
  end.

Definition upperAscii (c : ascii) : ascii :=
  let n := nat_of_ascii c in
  if ((97 <=? n) && (n <=? 122))%nat then ascii_of_nat (n - 32) else c.

Definition lowerAscii (c : ascii) : ascii :=
  let n := nat_of_ascii c in
  if ((65 <=? n) && (n <=? 90))%nat then ascii_of_nat (n + 32) else c.

Fixpoint mapChars (f : ascii -> ascii) (s : string) : string :=
  match s with
  | EmptyString => EmptyString
  | String c rest => String (f c) (mapChars f rest)
  end.

(** [s.toUpperCase()] and [s.toLowerCase()] on ASCII text. *)
Definition toUpperCase : string -> string := mapChars upperAscii.
Definition toLowerCase : string -> string := mapChars lowerAscii.

(** [s.replace("-", "_")]: a string pattern replaces the first
    occurrence only. *)
Fixpoint replaceFirstDash (s : string) : string :=
  match s with
  | EmptyString => EmptyString
  | String c rest =>
      if Ascii.eqb c "-"%char then String "_"%char rest
      else String c (replaceFirstDash rest)
  end.

(** Decimal rendering of a number inside a template literal. *)
Definition ofNat (n : nat) : string :=
  NilEmpty.string_of_uint (Nat.to_uint n).

(** [sub] occurs somewhere inside [s]. *)
Definition Substring (sub s : string) : Prop :=
  exists pre post, s = pre ++ sub ++ post.

End JsString.

Import JsString.

(** ** Configuration tables *)

(** [const ALL_PROVIDERS], the priority order. *)
Definition ALL_PROVIDERS : list string :=
  [ "google-ai"; "anthropic"; "openai"; "mistral"; "vertex";
    "azure"; "huggingface"; "bedrock"; "ollama" ].

(** [const DEFAULT_MODELS]; [None] is a missing key. *)
Definition DEFAULT_MODELS (provider : string) : option string :=
  if provider =? "openai" then Some "gpt-4o"
  else if provider =? "bedrock" then
    Some "arn:aws:bedrock:us-east-2:225681119357:inference-profile/us.anthropic.claude-3-7-sonnet-20250219-v1:0"
  else if provider =? "vertex" then Some "gemini-2.5-pro"
  else if provider =? "google-ai" then Some "gemini-2.5-pro"
  else if provider =? "anthropic" then Some "claude-3-5-sonnet-20241022"
  else if provider =? "azure" then Some "gpt-4o"
  else if provider =? "huggingface" then Some "microsoft/DialoGPT-medium"
  else if provider =? "ollama" then Some "llama3.2:latest"
  else if provider =? "mistral" then Some "mistral-small"
  else None.

(** [const PROVIDER_ENV_VARS]; [None] is a missing key (names inherited
    from [Object.prototype] are outside the model). *)
Definition PROVIDER_ENV_VARS (provider : string) : option (list string) :=
  if provider =? "openai" then Some ["OPENAI_API_KEY"]
  else if provider =? "bedrock" then
    Some ["AWS_ACCESS_KEY_ID"; "AWS_SECRET_ACCESS_KEY"]
  else if provider =? "vertex" then
    Some ["GOOGLE_VERTEX_PROJECT"; "GOOGLE_APPLICATION_CREDENTIALS";
          "GOOGLE_AUTH_CLIENT_EMAIL"]
  else if provider =? "google-ai" then Some ["GOOGLE_AI_API_KEY"]
  else if provider =? "anthropic" then Some ["ANTHROPIC_API_KEY"]
  else if provider =? "azure" then
    Some ["AZURE_OPENAI_API_KEY"; "AZURE_OPENAI_ENDPOINT"]
  else if provider =? "huggingface" then Some ["HUGGINGFACE_API_KEY"]
  else if provider =? "ollama" then Some []
  else if provider =? "mistral" then Some ["MISTRAL_API_KEY"]
  else None.

(** ** The environment *)

(** [process.env]: a name is either unset or bound to a string. *)
Definition Env : Type := string -> option string.

(** An environment given by its bindings, first binding wins. *)
Fixpoint envOf (bindings : list (string * string)) : Env :=
  fun name =>
    match bindings with
    | [] => None
    | (k, v) :: rest => if k =? name then Some v else envOf rest name
    end.

(** [a || b] on possibly undefined strings. *)
Definition orElse (a b : option string) : option string :=
  if truthy a then a else b.

(** [function getModelForProvider(provider)] *)
Definition getModelForProvider (env : Env) (provider : string) : option string :=
  let envVar := replaceFirstDash (toUpperCase provider) ++ "_MODEL" in
  orElse (orElse (env envVar) (DEFAULT_MODELS provider)) (DEFAULT_MODELS "openai").

(** [function isProviderConfigured(provider)] *)
Definition isProviderConfigured (env : Env) (provider : string) : bool :=
  if provider =? "ollama" then true
  else
    let requiredVars :=
      match PROVIDER_ENV_VARS provider with
      | Some vars => vars
      | None => []
      end in
    if provider =? "vertex" then
      existsb (fun varName => truthy (env varName)) requiredVars
    else
      forallb (fun varName => truthy (env varName)) requiredVars.

(** The first statements of [generateWithProvider]: the list bound to
    [providersToTry] when the loop starts. *)
Definition providersToTry (env : Env) (providerName : string) : list string :=
  if providerName =? "auto" then
    filter (fun p => isProviderConfigured env p) ALL_PROVIDERS
  else
    if negb (match env "ENABLE_FALLBACK" with
             | Some v => v =? "false"
             | None => false
             end)
    then
      let fallbackProviders :=
        filter (fun p => negb (p =? providerName) && isProviderConfigured env p)
               ALL_PROVIDERS in
      [providerName] ++ fallbackProviders
    else [providerName].

(** ** Error classification

    The [catch] block of [testProviderAvailability] sorts the message of
    a failed test request into five branches.  [classifyError] is the
    branch taken; [classifiedMessage] is the text that branch stores in
    [result.error]. *)

Inductive ErrorKind : Type :=
| Authentication
| NotFound
| RateLimited
| ConnectionFailure
| Unknown.

Definition classifyError (errorMsg : string) : ErrorKind :=
  if includes "401" errorMsg
     || includes "Unauthorized" errorMsg
     || includes "Invalid API" errorMsg
     || includes "Authentication" errorMsg
     || includes "API key" errorMsg
     || includes "not authorized" errorMsg
  then Authentication
  else if includes "404" errorMsg || includes "not found" errorMsg
  then NotFound
  else if includes "429" errorMsg || includes "rate limit" errorMsg
  then RateLimited
  else if includes "timeout" errorMsg || includes "ECONNREFUSED" errorMsg
  then ConnectionFailure
  else Unknown.

Definition classifiedMessage (kind : ErrorKind) (errorMsg : string) : string :=
  match kind with
  | Authentication => "Invalid API key or authentication failed"
  | NotFound => "Model or endpoint not found"
  | RateLimited => "Rate limit exceeded"
  | ConnectionFailure => "Connection failed - service may be down"
  | Unknown => errorMsg
  end.

(** The same five branches as an ordered table of patterns, searched
    from the top; used to state the precedence of the branches. *)
Definition classificationTable : list (ErrorKind * list string) :=
  [ (Authentication,
     ["401"; "Unauthorized"; "Invalid API"; "Authentication"; "API key";
      "not authorized"]);
    (NotFound, ["404"; "not found"]);
    (RateLimited, ["429"; "rate limit"]);
    (ConnectionFailure, ["timeout"; "ECONNREFUSED"]) ].

Fixpoint firstMatch (table : list (ErrorKind * list string)) (msg : string)
  : ErrorKind :=
  match table with
  | [] => Unknown
  | (kind, patterns) :: rest =>
      if existsb (fun pat => includes pat msg) patterns then kind
      else firstMatch rest msg
  end.

(** The taxonomy as the specification words it: the message is folded to
    lower case and searched for lower-case patterns. *)
Definition specClassificationTable : list (ErrorKind * list string) :=
  [ (Authentication,
     ["401"; "unauthorized"; "invalid api"; "authentication"; "api key";
      "not authorized"]);
    (NotFound, ["404"; "not found"]);
    (RateLimited, ["429"; "rate limit"]);
    (ConnectionFailure, ["timeout"; "connection refused"]) ].

Definition specClassify (msg : string) : ErrorKind :=
  firstMatch specClassificationTable (toLowerCase msg).

(** ** Values exchanged with the outside *)

(** A value caught by [catch (error)]: its [message] property, if any,
    and what [String(error)] gives.  Thrown values are objects. *)
Module Thrown.
Record t : Type := { message : option string; toString : string }.
End Thrown.

(** [error.message || String(error)], for a thrown object whose
    [message], when present, is a string; on a rejection with [null] or
    [undefined] the expression itself throws, a run the model does not
    have. *)
Definition errorMessage (error : Thrown.t) : string :=
  match Thrown.message error with
  | Some m => if nonEmpty m then m else Thrown.toString error
  | None => Thrown.toString error
  end.

(** [new Error(msg)] *)
Definition newError (msg : string) : Thrown.t :=
  {| Thrown.message := Some msg;
     Thrown.toString := if nonEmpty msg then "Error: " ++ msg else "Error" |}.

Module Usage.
Record t : Type := { totalTokens : option nat }.
End Usage.

(** What [aiProvider.generate] resolves to. *)
Module Payload.
Record t : Type :=
  { text : option string; model : option string; usage : option Usage.t }.
End Payload.

(** [createAIProvider(name)] followed by [provider.generate(request)]:
    either of them throws, or the second resolves to a payload
    ([None] for [null] or [undefined]). *)
Inductive Outcome : Type :=
| Throws (error : Thrown.t)
| Returns (result : option Payload.t).

(** [fetch("http://localhost:11434/api/tags", ...)] *)
Inductive FetchOutcome : Type :=
| FetchThrows (error : Thrown.t)
| FetchReturns (ok : bool).

(** One entry per call that leaves the process. *)
Inductive NetCall : Type :=
| ProviderCall (provider : string)
| OllamaFetch.

(** [const usageStats] *)
Module UsageStats.
Record t : Type :=
  { requests : nat;
    providers : list (string * nat);
    errors : nat;
    totalTokens : nat }.

Definition initial : t :=
  {| requests := 0; providers := []; errors := 0; totalTokens := 0 |}.
End UsageStats.

(** The object built by [testProviderAvailability]. *)
Module Status.
Record t : Type :=
  { available : bool;
    configured : bool;
    authenticated : bool;
    model : option string;
    error : option string }.
End Status.

(** The object returned by [generateWithProvider] on success. *)
Module Generated.
Record t : Type :=
  { content : string;
    provider : string;
    model : option string;
    responseTime : Z;
    usage : option Usage.t;
    attemptedProviders : nat;
    fallbackUsed : bool }.
End Generated.

(** How a call of [generateWithProvider] ends. *)
Inductive Completion : Type :=
| Resolved (result : Generated.t)
| ResolvedUndefined
| Rejected (error : Thrown.t).

(** How the [try] block of [generateWithProvider] treats what the
    provider call gave: a thrown value reaches [catch] as it is, and so
    does the error raised by [if (!result || !result.text)]; otherwise
    the text and the payload go on. *)
Definition checkResult (outcome : Outcome) : Thrown.t + (string * Payload.t) :=
  match outcome with
  | Throws error => inl error
  | Returns None => inl (newError "Provider returned null or invalid response")
  | Returns (Some result) =>
      match Payload.text result with
      | Some (String c s) => inr (String c s, result)
      | _ => inl (newError "Provider returned null or invalid response")
      end
  end.

(** ** The server, over an abstract outside world *)

Section Server.

(** The state of everything outside the process. *)
Variable World : Type.

(** The [options] object handed to [generateWithProvider]. *)
Variable Options : Type.

(** The argument of [provider.generate].  The test request of the probe
    is fixed up to the model; a generation request is determined by the
    prompt, the model and the caller's options (the defaults for
    [maxTokens] and [temperature] and the spread are functions of these). *)
Inductive Request : Type :=
| TestRequest (model : option string)
| GenerateRequest (prompt : string) (model : option string) (options : Options).

(** [Date.now()] *)
Variable now : World -> Z.

(** [createAIProvider(name)] followed by [generate(request)]. *)
Variable callProvider : string -> Request -> World -> Outcome * World.

(** The [fetch] of [testOllamaConnection]. *)
Variable fetchOllamaTags : World -> FetchOutcome * World.

(** The outside world, the module-level counters, and a record of the
    calls made into the provider library or the network, oldest first. *)
Record State : Type :=
  { world : World;
    usageStats : UsageStats.t;
    network : list NetCall }.

Definition invokeProvider (provider : string) (request : Request) (st : State)
  : Outcome * State :=
  let '(outcome, w) := callProvider provider request (world st) in
  (outcome,
   {| world := w;
      usageStats := usageStats st;
      network := network st ++ [ProviderCall provider] |}).

(** [const logRequest]: the middleware run before every route. *)
Definition logRequest (st : State) : State :=
  let u := usageStats st in
  {| world := world st;
     usageStats :=
       {| UsageStats.requests := UsageStats.requests u + 1;
          UsageStats.providers := UsageStats.providers u;
          UsageStats.errors := UsageStats.errors u;
          UsageStats.totalTokens := UsageStats.totalTokens u |};
     network := network st |}.

(** [usageStats.errors++] *)
Definition countError (st : State) : State :=
  let u := usageStats st in
  {| world := world st;
     usageStats :=
       {| UsageStats.requests := UsageStats.requests u;
          UsageStats.providers := UsageStats.providers u;
          UsageStats.errors := UsageStats.errors u + 1;
          UsageStats.totalTokens := UsageStats.totalTokens u |};
     network := network st |}.

(** [function updateUsageStats(usage)] *)
Definition updateUsageStats (usage : option Usage.t) (st : State) : State :=
  match usage with
  | Some u =>
      match Usage.totalTokens u with
      | Some (S n) =>
          let s := usageStats st in
          {| world := world st;
             usageStats :=
               {| UsageStats.requests := UsageStats.requests s;
                  UsageStats.providers := UsageStats.providers s;
                  UsageStats.errors := UsageStats.errors s;
                  UsageStats.totalTokens := UsageStats.totalTokens s + S n |};
             network := network st |}
      | _ => st
      end
  | None => st
  end.

(** [async function testOllamaConnection()] *)
Definition testOllamaConnection (st : State) : bool * State :=
  let '(outcome, w) := fetchOllamaTags (world st) in
  let st' := {| world := w;
                usageStats := usageStats st;
                network := network st ++ [OllamaFetch] |} in
  match outcome with
  | FetchReturns ok => (ok, st')
  | FetchThrows _ => (false, st')
  end.

(** [async function testProviderAvailability(providerName)] *)
Definition testProviderAvailability (env : Env) (providerName : string)
           (st : State) : Status.t * State :=
  let model := getModelForProvider env providerName in
  if providerName =? "ollama" then
    let '(isRunning, st1) := testOllamaConnection st in
    ({| Status.available := isRunning;
        Status.configured := isRunning;
        Status.authenticated := isRunning;
        Status.model := model;
        Status.error :=
          if isRunning then None
          else Some "Ollama is not running. Please start Ollama with: ollama serve" |},
     st1)
  else
    let hasEnvVars := isProviderConfigured env providerName in
    if negb hasEnvVars then
      let names :=
        match PROVIDER_ENV_VARS providerName with
        | Some vars =>
            let joined := join ", " vars in
            if nonEmpty joined then joined else "Unknown"
        | None => "Unknown"
        end in
      ({| Status.available := false;
          Status.configured := hasEnvVars;
          Status.authenticated := false;
          Status.model := model;
          Status.error :=
            Some ("Missing required environment variables: " ++ names) |},
       st)
    else
      let '(outcome, st1) :=
        invokeProvider providerName (TestRequest model) st in
      match outcome with
      | Returns _ =>
          ({| Status.available := true;
              Status.configured := hasEnvVars;
              Status.authenticated := true;
              Status.model := model;
              Status.error := None |},
           st1)
      | Throws error =>
          let errorMsg := errorMessage error in
          let kind := classifyError errorMsg in
          ({| Status.available := false;
              Status.configured := hasEnvVars;
              Status.authenticated :=
                match kind with
                | RateLimited => true
                | _ => false
                end;
              Status.model := model;
              Status.error := Some (classifiedMessage kind errorMsg) |},
           st1)
      end.

(** The [try] block of the loop of [generateWithProvider] for the
    candidate at index [i]: [inl] is the value that reaches [catch],
    [inr] the object returned to the caller. *)
Definition attempt (env : Env) (prompt : string) (options : Options)
           (startTime : Z) (i : nat) (currentProvider : string) (st : State)
  : (Thrown.t + Generated.t) * State :=
  let '(outcome, st1) :=
    invokeProvider currentProvider
      (GenerateRequest prompt (getModelForProvider env currentProvider) options)
      st in
  let responseTime := (now (world st1) - startTime)%Z in
  match checkResult outcome with
  | inl error => (inl error, st1)
  | inr (text, result) =>
      let st2 := updateUsageStats (Payload.usage result) st1 in
      (inr {| Generated.content := text;
              Generated.provider := currentProvider;
              Generated.model :=
                orElse (Payload.model result)
                       (getModelForProvider env currentProvider);
              Generated.responseTime := responseTime;
              Generated.usage := Payload.usage result;
              Generated.attemptedProviders := i + 1;
              Generated.fallbackUsed := (0 <? i)%nat |},
       st2)
  end.

(** The [for] loop of [generateWithProvider].  [rest] holds the
    candidates from index [i] on, [len] is [providersToTry.length];
    the loop ends without returning when no candidate is left. *)
Fixpoint tryProviders (env : Env) (prompt : string) (options : Options)
         (startTime : Z) (len i : nat) (rest : list string)
         (errors : list string) (st : State) : Completion * State :=
  match rest with
  | [] => (ResolvedUndefined, st)
  | currentProvider :: rest' =>
      match attempt env prompt options startTime i currentProvider st with
      | (inr result, st') => (Resolved result, st')
      | (inl error, st') =>
          let errorMsg := errorMessage error in
          let errors' := List.app errors [currentProvider ++ ": " ++ errorMsg] in
          if (i =? len - 1)%nat then
            (Rejected
               (newError ("Failed after " ++ ofNat len
                          ++ " attempts. Last error: " ++ errorMsg)),
             st')
          else
            tryProviders env prompt options startTime len (i + 1) rest' errors' st'
      end
  end.

(** [async function generateWithProvider(providerName, prompt, options)] *)
Definition generateWithProvider (env : Env) (providerName prompt : string)
           (options : Options) (st : State) : Completion * State :=
  let startTime := now (world st) in
  let candidates := providersToTry env providerName in
  tryProviders env prompt options startTime (length candidates) 0 candidates [] st.

(** The body of a [POST /api/generate] request: [provider] and [prompt]
    as sent, and the options object the route builds from the other
    fields. *)
Record GenerateBody : Type :=
  { body_provider : option string;
    body_prompt : option string;
    body_options : Options }.

(** What the route sends back (the mock tool metadata and the
    timestamp of the success object are left out). *)
Inductive Response : Type :=
| Ok200 (result : Generated.t)
| BadRequest400 (error : string)
| Failure500 (error : option string) (provider : string).

(** [logRequest] followed by the handler of [app.post("/api/generate")]. *)
Definition postGenerate (env : Env) (body : GenerateBody) (st : State)
  : Response * State :=
  let st0 := logRequest st in
  let provider :=
    match body_provider body with
    | Some p => p
    | None => "auto"
    end in
  match body_prompt body with
  | Some (String c s) =>
      match generateWithProvider env provider (String c s) (body_options body) st0 with
      | (Resolved result, st1) => (Ok200 result, st1)
      | (ResolvedUndefined, st1) =>
          (* reading [result.responseTime] throws inside the [try] *)
          (Failure500
             (Some "Cannot read properties of undefined (reading 'responseTime')")
             provider,
           countError st1)
      | (Rejected error, st1) =>
          (Failure500 (Thrown.message error) provider, countError st1)
      end
  | _ => (BadRequest400 "Prompt is required", st0)
  end.

(** *** Runs of the candidate list against the outside world *)

(** The state reached from [st] once the providers [called] have been
    invoked, in that order, leaving the world at [w]. *)
Definition afterCalls (st : State) (w : World) (called : list string) : State :=
  {| world := w;
     usageStats := usageStats st;
     network := network st ++ map ProviderCall called |}.

Definition generateRequest (env : Env) (prompt : string) (options : Options)
           (provider : string) : Request :=
  GenerateRequest prompt (getModelForProvider env provider) options.

(** [AllFail env prompt options cands w msgs w']: called one after the
    other from world [w], every candidate of [cands] ends in [catch];
    [msgs] are the messages caught, [w'] is the world afterwards. *)
Inductive AllFail (env : Env) (prompt : string) (options : Options)
  : list string -> World -> list string -> World -> Prop :=
| AllFail_nil : forall w, AllFail env prompt options [] w [] w
| AllFail_cons : forall p ps w outcome w1 error msgs w',
    callProvider p (generateRequest env prompt options p) w = (outcome, w1) ->
    checkResult outcome = inl error ->
    AllFail env prompt options ps w1 msgs w' ->
    AllFail env prompt options (p :: ps) w (errorMessage error :: msgs) w'.

(** [FirstSuccess env prompt options cands w K text result w']: called
    one after the other from world [w], the first [K - 1] candidates
    end in [catch] and candidate [K] returns [result], whose non-empty
    text is [text]. *)
Inductive FirstSuccess (env : Env) (prompt : string) (options : Options)
  : list string -> World -> nat -> string -> Payload.t -> World -> Prop :=
| FirstSuccess_here : forall p ps w outcome w1 text result,
    callProvider p (generateRequest env prompt options p) w = (outcome, w1) ->
    checkResult outcome = inr (text, result) ->
    FirstSuccess env prompt options (p :: ps) w 1 text result w1
| FirstSuccess_later : forall p ps w outcome w1 error K text result w',
    callProvider p (generateRequest env prompt options p) w = (outcome, w1) ->
    checkResult outcome = inl error ->
    FirstSuccess env prompt options ps w1 K text result w' ->
    FirstSuccess env prompt options (p :: ps) w (S K) text result w'.

End Server.

Arguments world {World} _.
Arguments usageStats {World} _.
Arguments network {World} _.
Arguments body_provider {Options} _.
Arguments body_prompt {Options} _.
Arguments body_options {Options} _.

(** ** Names every object inherits

    A table written as an object literal answers a lookup of one of these
    names with a function inherited from [Object.prototype], not with
    [undefined]; the tables above model own keys only, so statements
    about names missing from a table leave these aside. *)
Definition inheritedNames : list string :=
  [ "__defineGetter__"; "__defineSetter__"; "__lookupGetter__";
    "__lookupSetter__"; "__proto__"; "constructor"; "hasOwnProperty";
    "isPrototypeOf"; "propertyIsEnumerable"; "toLocaleString"; "toString";
    "valueOf" ].

(** Every character of the string is ASCII; on such strings
    [toUpperCase] and [toLowerCase] above are the JavaScript methods. *)
Fixpoint asciiOnly (s : string) : bool :=
  match s with
  | EmptyString => true
  | String c rest => (nat_of_ascii c <? 128)%nat && asciiOnly rest
  end.

(** ** The error categories of the test runner

    [function categorizeError(error)] of [src/enhanced-endpoints.js],
    applied to an error whose [message] is the given string. *)

Inductive ErrorCategory : Type :=
| AUTHENTICATION_ERROR
| NETWORK_ERROR
| RATE_LIMIT_ERROR
| VALIDATION_ERROR
| MODEL_ERROR
| UNKNOWN_ERROR.

Definition categorizeError (errorMessage : string) : ErrorCategory :=
  let message := toLowerCase errorMessage in
  if includes "api key" message
     || includes "authentication" message
     || includes "unauthorized" message
  then AUTHENTICATION_ERROR
  else if includes "network" message
          || includes "timeout" message
          || includes "connection" message
  then NETWORK_ERROR
  else if includes "rate limit" message || includes "quota" message
  then RATE_LIMIT_ERROR
  else if includes "prompt" message || includes "invalid" message
  then VALIDATION_ERROR
  else if includes "model" message || includes "not found" message
  then MODEL_ERROR
  else UNKNOWN_ERROR.

(** ** The other routes of the server *)

(** [usage && usage.totalTokens], read as the number of tokens a usage
    payload contributes to the counters. *)
Definition tokensOf (usage : option Usage.t) : nat :=
  match usage with
  | Some u =>
      match Usage.totalTokens u with
      | Some n => n
      | None => 0
      end
  | None => 0
  end.

(** [process.env[key] === value] *)
Definition envIs (env : Env) (key value : string) : bool :=
  match env key with
  | Some v => v =? value
  | None => false
  end.

(** The outside calls one run of [testProviderAvailability] makes. *)
Definition probeCalls (env : Env) (providerName : string) : list NetCall :=
  if providerName =? "ollama" then [OllamaFetch]
  else if isProviderConfigured env providerName then [ProviderCall providerName]
  else [].

(** [status.providers[p]] on the object filled by the status route. *)
Fixpoint lookupStatus (providers : list (string * Status.t)) (p : string)
  : option Status.t :=
  match providers with
  | [] => None
  | (name, status) :: rest =>
      if name =? p then Some status else lookupStatus rest p
  end.

(** [status.providers[p].authenticated]; every name asked for is a key. *)
Definition isAuthenticated (providers : list (string * Status.t)) (p : string)
  : bool :=
  match lookupStatus providers p with
  | Some status => Status.authenticated status
  | None => false
  end.

(** The object sent by [GET /api/status] (its timestamp left out). *)
Module StatusReport.
Record t : Type :=
  { providers : list (string * Status.t);
    bestProvider : option string;
    defaultProvider : string;
    streamingEnabled : bool;
    fallbackEnabled : bool }.
End StatusReport.

(** One entry of [results.results] of [POST /api/benchmark]: on success
    its fields are read off the generation result. *)
Inductive BenchmarkEntry : Type :=
| BenchmarkSuccess (result : Generated.t)
| BenchmarkFailure (error : option string).

(** The tokens reported by the successful entries of a benchmark. *)
Fixpoint benchmarkTokens (entries : list (string * BenchmarkEntry)) : nat :=
  match entries with
  | [] => 0
  | (_, BenchmarkSuccess result) :: rest =>
      tokensOf (Generated.usage result) + benchmarkTokens rest
  | (_, BenchmarkFailure _) :: rest => benchmarkTokens rest
  end.

(** What a route without a response type of its own sends: a status
    code with either [createSuccessResponse({content, usage})] or
    [createErrorResponse(error, ...)]. *)
Inductive Reply : Type :=
| ReplyContent (content : string) (usage : option Usage.t)
| ReplyError (statusCode : nat) (error : option string).

(** [`...${v}...`] for a body field that may be missing. *)
Definition interpolate (v : option string) : string :=
  match v with
  | Some s => s
  | None => "undefined"
  end.

(** [emailPrompts[type] || emailPrompts.marketing] with
    [type = "marketing"] when the field is missing, for a [type] that is
    not an inherited property name. *)
Definition emailPrompt (type context : option string) : string :=
  let marketing :=
    "Write a professional marketing email about: " ++ interpolate context
    ++ ". Include a compelling subject line, engaging body text, and clear call-to-action." in
  let support :=
    "Write a helpful customer support email response for: " ++ interpolate context
    ++ ". Be empathetic, solution-focused, and professional." in
  let followUp :=
    "Write a polite follow-up email regarding: " ++ interpolate context
    ++ ". Be courteous, specific about next steps, and include timeline." in
  let key := match type with Some t => t | None => "marketing" end in
  if key =? "marketing" then marketing
  else if key =? "support" then support
  else if key =? "follow-up" then followUp
  else marketing.

(** The key of [schemas[type] || schemas["user-profile"]], for a [type]
    that is not an inherited property name. *)
Definition schemaKey (type : option string) : string :=
  let key := match type with Some t => t | None => "user-profile" end in
  if key =? "user-profile" then "user-profile"
  else if key =? "product-review" then "product-review"
  else if key =? "meeting-notes" then "meeting-notes"
  else "user-profile".

(** [schemas[key].prompt] *)
Definition schemaPrompt (key : string) : string :=
  if key =? "product-review" then
    "Generate a product review for a smartphone including rating, pros, cons, and recommendation."
  else if key =? "meeting-notes" then
    "Generate meeting notes for a project planning session including attendees, decisions, and action items."
  else
    "Generate a user profile for a fictional character including name, age, occupation, and hobbies.".

Section Routes.

Variables World Options : Type.
Variable now : World -> Z.
Variable callProvider : string -> Request Options -> World -> Outcome * World.
Variable fetchOllamaTags : World -> FetchOutcome * World.

(** The literal option objects of the routes. *)
Variable benchmarkOptions : Options.
Variable emailOptions : Options.
Variable schemaOptions : string -> Options.

(** [JSON.parse]: a value, or the error thrown. *)
Variable Json : Type.
Variable jsonParse : string -> Thrown.t + Json.

(** The loop [for (const providerName of ALL_PROVIDERS)] of
    [GET /api/status], filling [status.providers]. *)
Fixpoint probeEach (env : Env) (names : list string) (st : State World)
  : list (string * Status.t) * State World :=
  match names with
  | [] => ([], st)
  | providerName :: rest =>
      let '(status, st1) :=
        testProviderAvailability World Options callProvider fetchOllamaTags
                                 env providerName st in
      let '(others, st2) := probeEach env rest st1 in
      ((providerName, status) :: others, st2)
  end.

(** [logRequest] followed by the handler of [app.get("/api/status")]. *)
Definition getStatus (env : Env) (st : State World)
  : StatusReport.t * State World :=
  let st0 := logRequest World st in
  let '(providers, st1) := probeEach env ALL_PROVIDERS st0 in
  let authenticatedProviders :=
    filter (fun p => isAuthenticated providers p) ALL_PROVIDERS in
  ({| StatusReport.providers := providers;
      StatusReport.bestProvider :=
        match authenticatedProviders with
        | p :: _ => Some p
        | [] => None
        end;
      StatusReport.defaultProvider :=
        match env "DEFAULT_PROVIDER" with
        | Some v => if nonEmpty v then v else "openai"
        | None => "openai"
        end;
      StatusReport.streamingEnabled := envIs env "ENABLE_STREAMING" "true";
      StatusReport.fallbackEnabled := envIs env "ENABLE_FALLBACK" "true" |},
   st1).

(** The loop of [POST /api/benchmark], filling [results.results]. *)
Fixpoint benchmarkEach (env : Env) (names : list string) (st : State World)
  : list (string * BenchmarkEntry) * State World :=
  match names with
  | [] => ([], st)
  | providerName :: rest =>
      let '(completion, st1) :=
        generateWithProvider World Options now callProvider env providerName
          "Write a haiku about artificial intelligence." benchmarkOptions st in
      let entry :=
        match completion with
        | Resolved result => BenchmarkSuccess result
        | ResolvedUndefined =>
            BenchmarkFailure
              (Some "Cannot read properties of undefined (reading 'responseTime')")
        | Rejected error => BenchmarkFailure (Thrown.message error)
        end in
      let '(others, st2) := benchmarkEach env rest st1 in
      ((providerName, entry) :: others, st2)
  end.

(** [logRequest] followed by the handler of [app.post("/api/benchmark")]. *)
Definition postBenchmark (env : Env) (st : State World)
  : list (string * BenchmarkEntry) * State World :=
  benchmarkEach env ALL_PROVIDERS (logRequest World st).

(** The error-handling middleware [app.use((error, req, res, next) => ...)],
    reached through [asyncHandler] when a handler rejects;
    [errorStatusCode] is the [statusCode] property of the error, if any. *)
Definition errorMiddleware (error : Thrown.t) (errorStatusCode : option nat)
           (st : State World) : Reply * State World :=
  let st' := countError World st in
  let statusCode :=
    match errorStatusCode with
    | Some (S n) => S n
    | _ => 500
    end in
  let message :=
    match Thrown.message error with
    | Some m => if nonEmpty m then m else "Internal server error"
    | None => "Internal server error"
    end in
  (ReplyError statusCode (Some message), st').

(** [logRequest] followed by the handler of
    [app.post("/api/business/email")], which has no [try] of its own. *)
Definition postBusinessEmail (env : Env) (type context : option string)
           (st : State World) : Reply * State World :=
  let st0 := logRequest World st in
  match generateWithProvider World Options now callProvider env "auto"
          (emailPrompt type context) emailOptions st0 with
  | (Resolved result, st1) =>
      (ReplyContent (Generated.content result) (Generated.usage result), st1)
  | (ResolvedUndefined, st1) =>
      errorMiddleware
        (newError "Cannot read properties of undefined (reading 'content')")
        None st1
  | (Rejected error, st1) => errorMiddleware error None st1
  end.

(** What [POST /api/schema] sends. *)
Inductive SchemaReply : Type :=
| SchemaOk (structuredData : Json) (rawText provider : string)
           (usage : option Usage.t) (schema : string)
| SchemaError (error : option string).

(** [logRequest] followed by the handler of [app.post("/api/schema")];
    the result of [generateWithProvider] has no [object] property, so the
    structured data is always [JSON.parse(result.content)]. *)
Definition postSchema (env : Env) (type : option string) (st : State World)
  : SchemaReply * State World :=
  let st0 := logRequest World st in
  let key := schemaKey type in
  match generateWithProvider World Options now callProvider env "auto"
          (schemaPrompt key) (schemaOptions key) st0 with
  | (Resolved result, st1) =>
      match jsonParse (Generated.content result) with
      | inr data =>
          (SchemaOk data (Generated.content result) (Generated.provider result)
                    (Generated.usage result) key,
           st1)
      | inl error => (SchemaError (Thrown.message error), st1)
      end
  | (ResolvedUndefined, st1) =>
      (SchemaError (Some "Cannot read properties of undefined (reading 'object')"),
       st1)
  | (Rejected error, st1) => (SchemaError (Thrown.message error), st1)
  end.

End Routes.

(** ** The MCP server registry of [src/mcp-helpers.js]

    The registry lives in the file [.mcp-config.json].  A file that
    parses holds either a registry -- an object whose [mcpServers] is an
    object of server configurations, its entries listed in key order --
    or one of the values on which [config.mcpServers[name]] throws.
    [JSON.parse] undoes [JSON.stringify] on such values. *)

Module Mcp.

Record ServerConfig : Type :=
  { name : string;
    command : string;
    args : list string;
    transport : string;
    env : option (list (string * string));
    cwd : option string;
    url : option string }.

(** What [loadMCPConfig] returns. *)
Inductive Config : Type :=
| Registry (servers : list (string * ServerConfig))
| ConfigNull          (* the file holds [null] *)
| ServersUndefined    (* a value without [mcpServers]: [{}], [[]], [5] *)
| ServersNull.        (* [{ "mcpServers": null }] *)

(** What is on disk under [MCP_CONFIG_FILE]. *)
Inductive ConfigFile : Type :=
| FileMissing
| FileUnreadable
| FileHolds (config : Config).

(** The file and, when [fs.writeFileSync] cannot write it, the message
    it throws together with what the file holds after the failed
    attempt. *)
Record Disk : Type :=
  { file : ConfigFile;
    writeError : option (string * ConfigFile) }.

(** Own-key lookup in a registry object. *)
Fixpoint find (servers : list (string * ServerConfig)) (serverName : string)
  : option ServerConfig :=
  match servers with
  | [] => None
  | (key, config) :: rest =>
      if key =? serverName then Some config else find rest serverName
  end.

(** [config.mcpServers[serverName]] where reading it does not throw;
    [None] on the other values, where it does (see [accessError]). *)
Definition lookup (config : Config) (serverName : string)
  : option ServerConfig :=
  match config with
  | Registry servers => find servers serverName
  | _ => None
  end.

(** The message of the TypeError thrown by reading
    [config.mcpServers[serverName]], or by assigning to it, on a config
    without a registry. *)
Definition accessError (assigning : bool) (config : Config)
           (serverName : string) : string :=
  let verb := if assigning then "set" else "read" in
  let doing := if assigning then "setting" else "reading" in
  match config with
  | Registry _ => ""
  | ConfigNull => "Cannot read properties of null (reading 'mcpServers')"
  | ServersUndefined =>
      "Cannot " ++ verb ++ " properties of undefined (" ++ doing ++ " '"
      ++ serverName ++ "')"
  | ServersNull =>
      "Cannot " ++ verb ++ " properties of null (" ++ doing ++ " '"
      ++ serverName ++ "')"
  end.

(** [config.mcpServers[serverName] = serverConfig]: an existing key keeps
    its place, a new key goes last. *)
Fixpoint assign (serverName : string) (serverConfig : ServerConfig)
         (servers : list (string * ServerConfig))
  : list (string * ServerConfig) :=
  match servers with
  | [] => [(serverName, serverConfig)]
  | (key, config) :: rest =>
      if key =? serverName then (key, serverConfig) :: rest
      else (key, config) :: assign serverName serverConfig rest
  end.

(** [delete config.mcpServers[serverName]] *)
Fixpoint remove (serverName : string) (servers : list (string * ServerConfig))
  : list (string * ServerConfig) :=
  match servers with
  | [] => []
  | (key, config) :: rest =>
      if key =? serverName then remove serverName rest
      else (key, config) :: remove serverName rest
  end.

(** [export function loadMCPConfig()] *)
Definition loadMCPConfig (disk : Disk) : Config :=
  match file disk with
  | FileMissing => Registry []
  | FileUnreadable => Registry []
  | FileHolds config => config
  end.

(** [export function saveMCPConfig(config)]: [None] is
    [{ success: true }], [Some message] is
    [{ success: false, error: message }]. *)
Definition saveMCPConfig (config : Config) (disk : Disk)
  : option string * Disk :=
  match writeError disk with
  | Some (message, remains) =>
      (Some message, {| file := remains; writeError := writeError disk |})
  | None => (None, {| file := FileHolds config; writeError := None |})
  end.

(** The objects the registry functions return. *)
Inductive Result : Type :=
| Success (server : option ServerConfig) (message : string)
| Failure (error : string).

Definition npx (serverName : string) (arguments : list string) : ServerConfig :=
  {| name := serverName;
     command := "npx";
     args := arguments;
     transport := "stdio";
     env := None;
     cwd := None;
     url := None |}.

(** [const popularServers] of [installMCPServer]. *)
Definition popularServers (serverName : string) : option ServerConfig :=
  if serverName =? "filesystem" then
    Some (npx "filesystem" ["-y"; "@modelcontextprotocol/server-filesystem"; "/"])
  else if serverName =? "github" then
    Some (npx "github" ["-y"; "@modelcontextprotocol/server-github"])
  else if serverName =? "postgres" then
    Some (npx "postgres" ["-y"; "@modelcontextprotocol/server-postgres"])
  else if serverName =? "brave-search" then
    Some (npx "brave-search" ["-y"; "@modelcontextprotocol/server-brave-search"])
  else if serverName =? "puppeteer" then
    Some (npx "puppeteer" ["-y"; "@modelcontextprotocol/server-puppeteer"])
  else None.

(** [Object.keys(popularServers)] *)
Definition popularNames : list string :=
  ["filesystem"; "github"; "postgres"; "brave-search"; "puppeteer"].

(** [export function installMCPServer(serverName)]; the last branch is
    its [catch]. *)
Definition installMCPServer (serverName : string) (disk : Disk) : Result * Disk :=
  match popularServers serverName with
  | None =>
      (Failure ("Unknown server: " ++ serverName ++ ". Available: "
                ++ join ", " popularNames),
       disk)
  | Some serverConfig =>
      match loadMCPConfig disk with
      | Registry servers =>
          match saveMCPConfig (Registry (assign serverName serverConfig servers))
                              disk with
          | (Some message, disk') => (Failure message, disk')
          | (None, disk') =>
              (Success (Some serverConfig)
                       ("MCP server '" ++ serverName ++ "' installed successfully"),
               disk')
          end
      | config => (Failure (accessError true config serverName), disk)
      end
  end.

(** [export function removeMCPServer(serverName)]; the last branch is
    its [catch]. *)
Definition removeMCPServer (serverName : string) (disk : Disk) : Result * Disk :=
  match loadMCPConfig disk with
  | Registry servers =>
      match find servers serverName with
      | None => (Failure ("MCP server '" ++ serverName ++ "' not found"), disk)
      | Some _ =>
          match saveMCPConfig (Registry (remove serverName servers)) disk with
          | (Some message, disk') => (Failure message, disk')
          | (None, disk') =>
              (Success None
                       ("MCP server '" ++ serverName ++ "' removed successfully"),
               disk')
          end
      end
  | config => (Failure (accessError false config serverName), disk)
  end.

(** The properties [addCustomMCPServer] reads from its [options]. *)
Record AddOptions : Type :=
  { opt_args : option (list string);
    opt_transport : option string;
    opt_env : option (list (string * string));
    opt_cwd : option string;
    opt_url : option string }.

(** [export function addCustomMCPServer(name, command, options)];
    [processCwd] is [process.cwd()], the last branch is the [catch]. *)
Definition addCustomMCPServer (processCwd : string) (serverName command : string)
           (options : AddOptions) (disk : Disk) : Result * Disk :=
  match loadMCPConfig disk with
  | Registry servers =>
      match find servers serverName with
      | Some _ =>
          (Failure ("MCP server '" ++ serverName ++ "' already exists"), disk)
      | None =>
          let serverConfig :=
            {| name := serverName;
               command := command;
               args := match opt_args options with Some a => a | None => [] end;
               transport :=
                 match opt_transport options with
                 | Some t => if nonEmpty t then t else "stdio"
                 | None => "stdio"
                 end;
               env := Some (match opt_env options with Some e => e | None => [] end);
               cwd :=
                 Some (match opt_cwd options with
                       | Some c => if nonEmpty c then c else processCwd
                       | None => processCwd
                       end);
               url :=
                 match opt_url options with
                 | Some u => if nonEmpty u then Some u else None
                 | None => None
                 end |} in
          match saveMCPConfig (Registry (assign serverName serverConfig servers))
                              disk with
          | (Some message, disk') => (Failure message, disk')
          | (None, disk') =>
              (Success (Some serverConfig)
                       ("Custom MCP server '" ++ serverName
                        ++ "' added successfully"),
               disk')
          end
      end
  | config => (Failure (accessError false config serverName), disk)
  end.

End Mcp.

(** ** A small concrete world

    The world counts the calls made so far; what a provider answers
    depends on its name only.  Used to run the definitions on inputs. *)

Module Demo.

Definition World : Type := nat.
Definition Options : Type := unit.

Definition now (w : World) : Z := (1000 + 40 * Z.of_nat w)%Z.

Definition worldOf (behaviour : string -> Outcome)
  : string -> Request Options -> World -> Outcome * World :=
  fun provider _ w => (behaviour provider, S w).

Definition ollamaDown (w : World) : FetchOutcome * World :=
  (FetchThrows (newError "fetch failed"), S w).

Definition reply (text : string) (tokens : nat) : Outcome :=
  Returns (Some {| Payload.text := Some text;
                   Payload.model := None;
                   Payload.usage := Some {| Usage.totalTokens := Some tokens |} |}).

(** Only [ANTHROPIC_API_KEY] is set. *)
Definition env : Env := envOf [("ANTHROPIC_API_KEY", "sk-ant-test")].

(** The same with fallback switched off. *)
Definition envNoFallback : Env :=
  envOf [("ANTHROPIC_API_KEY", "sk-ant-test"); ("ENABLE_FALLBACK", "false")].

(** Every provider throws. *)
Definition everyoneFails (provider : string) : Outcome :=
  if provider =? "openai" then Throws (newError "401 Unauthorized")
  else if provider =? "anthropic" then Throws (newError "quota exhausted")
  else Throws (newError "connect ECONNREFUSED 127.0.0.1:11434").

(** [openai] answers with an empty text, [anthropic] with a real one
    and 57 tokens, the others throw. *)
Definition anthropicAnswers (provider : string) : Outcome :=
  if provider =? "openai" then reply "" 12
  else if provider =? "anthropic" then reply "Hello there" 57
  else Throws (newError "connect ECONNREFUSED 127.0.0.1:11434").

(** The test request is refused with a 429. *)
Definition rateLimited (provider : string) : Outcome :=
  Throws (newError "429 Too Many Requests").

Definition start : State World :=
  {| world := 0; usageStats := UsageStats.initial; network := [] |}.

Definition body (provider prompt : string) : GenerateBody Options :=
  {| body_provider := Some provider;
     body_prompt := Some prompt;
     body_options := tt |}.

(** A [JSON.parse] that accepts nothing. *)
Definition Json : Type := unit.

Definition jsonRejects (text : string) : Thrown.t + Json :=
  inl (newError "Unexpected token H in JSON at position 0").

(** [anthropic] and [azure] are set up; nothing else is. *)
Definition envTwo : Env :=
  envOf [("ANTHROPIC_API_KEY", "sk-ant-test");
         ("AZURE_OPENAI_API_KEY", "az-test");
         ("AZURE_OPENAI_ENDPOINT", "https://example.openai.azure.com")].

(** The local daemon answers. *)
Definition ollamaUp (w : World) : FetchOutcome * World :=
  (FetchReturns true, S w).

(** A registry file holding one hand-written server. *)
Definition notesServer : Mcp.ServerConfig :=
  {| Mcp.name := "notes";
     Mcp.command := "node";
     Mcp.args := ["notes-server.js"];
     Mcp.transport := "stdio";
     Mcp.env := Some [];
     Mcp.cwd := Some "/srv/demo";
     Mcp.url := None |}.

Definition disk : Mcp.Disk :=
  {| Mcp.file := Mcp.FileHolds (Mcp.Registry [("notes", notesServer)]);
     Mcp.writeError := None |}.

(** A writable disk whose file holds [{}]. *)
Definition emptyObjectDisk : Mcp.Disk :=
  {| Mcp.file := Mcp.FileHolds Mcp.ServersUndefined;
     Mcp.writeError := None |}.

Definition noOptions : Mcp.AddOptions :=
  {| Mcp.opt_args := None;
     Mcp.opt_transport := None;
     Mcp.opt_env := None;
     Mcp.opt_cwd := None;
     Mcp.opt_url := None |}.

End Demo.

(** * Properties *)

(** ** Substring search *)

Lemma prefix_iff_append (a b : string) :
  prefix a b = true <-> exists post, b = a ++ post.
Proof.
  revert b; induction a as [|c a IH]; intros b.
  - split; [intros _; exists b; reflexivity | intros _; now destruct b].
  - destruct b as [|d b]; simpl.
    + split; [discriminate | intros [post H]; discriminate].
    + destruct (ascii_dec c d) as [->|Hne].
      * rewrite IH. split; intros [post H]; exists post.
        -- now rewrite H.
        -- now inversion H.
      * split; [discriminate | intros [post H]; inversion H; congruence].
Qed.

Lemma includes_empty (sub : string) : includes sub "" = prefix sub "".
Proof. unfold includes. apply orb_false_r. Qed.

Lemma includes_step (sub : string) (c : ascii) (s : string) :
  includes sub (String c s) = prefix sub (String c s) || includes sub s.
Proof. reflexivity. Qed.

Lemma includes_iff_Substring (sub s : string) :
  includes sub s = true <-> Substring sub s.
Proof.
  unfold Substring. split.
  - induction s as [|c s IH]; intros H.
    + rewrite includes_empty in H. apply prefix_iff_append in H.
      destruct H as [post H]. now exists "", post.
    + rewrite includes_step in H.
      apply orb_true_iff in H. destruct H as [H|H].
      * apply prefix_iff_append in H. destruct H as [post H].
        now exists "", post.
      * destruct (IH H) as (pre & post & E).
        exists (String c pre), post. simpl. now rewrite E.
  - intros (pre & post & E). revert s E.
    induction pre as [|c pre IH]; intros s E; simpl in E.
    + assert (P : prefix sub s = true)
        by (apply prefix_iff_append; now exists post).
      destruct s; [rewrite includes_empty | rewrite includes_step, P]; auto.
    + subst s. rewrite includes_step, (IH _ eq_refl). apply orb_true_r.
Qed.

(** ** Candidate lists *)

Lemma filter_filter {A : Type} (f g : A -> bool) (l : list A) :
  filter f (filter g l) = filter (fun x => f x && g x) l.
Proof.
  induction l as [|x l IH]; simpl; [reflexivity|].
  destruct (g x); simpl.
  - destruct (f x); simpl; now rewrite IH.
  - rewrite andb_false_r. exact IH.
Qed.

Lemma ollama_always_configured (env : Env) :
  isProviderConfigured env "ollama" = true.
Proof. reflexivity. Qed.

Lemma auto_candidates_end_with_ollama (env : Env) :
  exists front, providersToTry env "auto" = (front ++ ["ollama"])%list.
Proof.
  exists (filter (fun p => isProviderConfigured env p)
            ["google-ai"; "anthropic"; "openai"; "mistral"; "vertex";
             "azure"; "huggingface"; "bedrock"]).
  unfold providersToTry.
  change ("auto" =? "auto") with true. cbv iota.
  change ALL_PROVIDERS
    with (["google-ai"; "anthropic"; "openai"; "mistral"; "vertex";
           "azure"; "huggingface"; "bedrock"] ++ ["ollama"])%list.
  rewrite filter_app. reflexivity.
Qed.

Lemma providersToTry_nonempty (env : Env) (providerName : string) :
  providersToTry env providerName <> [].
Proof.
  unfold providersToTry.
  destruct (providerName =? "auto") eqn:Hauto.
  - apply String.eqb_eq in Hauto. subst.
    destruct (auto_candidates_end_with_ollama env) as [front E].
    unfold providersToTry in E. change ("auto" =? "auto") with true in E.
    cbv iota in E. rewrite E.
    destruct front; discriminate.
  - destruct (negb _); discriminate.
Qed.

(** C2. The candidate list is a function of the environment and the
    requested provider alone.  In ["auto"] mode it is the priority list
    google-ai, anthropic, openai, mistral, vertex, azure, huggingface,
    bedrock, ollama filtered by the configuration check, order kept.  For
    an explicit provider it is that provider followed by the configured
    providers of the priority list other than itself, in priority order,
    unless [ENABLE_FALLBACK] is ["false"], when it is the requested
    provider alone. *)
Theorem candidate_list_construction (env : Env) (requestedProvider : string) :
  let priority :=
    [ "google-ai"; "anthropic"; "openai"; "mistral"; "vertex";
      "azure"; "huggingface"; "bedrock"; "ollama" ] in
  let configured := filter (isProviderConfigured env) priority in
  (requestedProvider = "auto" ->
   providersToTry env requestedProvider = configured)
  /\ (requestedProvider <> "auto" ->
      env "ENABLE_FALLBACK" <> Some "false" ->
      providersToTry env requestedProvider
      = requestedProvider
          :: filter (fun p => negb (p =? requestedProvider)) configured)
  /\ (requestedProvider <> "auto" ->
      env "ENABLE_FALLBACK" = Some "false" ->
      providersToTry env requestedProvider = [requestedProvider]).
Proof.
  intros priority configured. split; [|split].
  - intros ->. reflexivity.
  - intros Hname Hfb. unfold providersToTry.
    apply String.eqb_neq in Hname. rewrite Hname.
    assert (Hoff : match env "ENABLE_FALLBACK" with
                   | Some v => v =? "false"
                   | None => false
                   end = false).
    { destruct (env "ENABLE_FALLBACK") as [v|]; [|reflexivity].
      apply String.eqb_neq. congruence. }
    rewrite Hoff. cbn [negb app]. f_equal.
    unfold configured. rewrite filter_filter. reflexivity.
  - intros Hname Hfb. unfold providersToTry.
    apply String.eqb_neq in Hname. rewrite Hname, Hfb. reflexivity.
Qed.

Lemma candidate_list_construction_witness :
  providersToTry Demo.env "auto" = ["anthropic"; "ollama"]
  /\ providersToTry Demo.env "openai" = ["openai"; "anthropic"; "ollama"]
  /\ providersToTry Demo.envNoFallback "openai" = ["openai"].
Proof.
  split; [|split].
  - destruct (candidate_list_construction Demo.env "auto") as [H _].
    rewrite (H eq_refl). reflexivity.
  - destruct (candidate_list_construction Demo.env "openai") as (_ & H & _).
    rewrite H; [reflexivity | discriminate | discriminate].
  - destruct (candidate_list_construction Demo.envNoFallback "openai")
      as (_ & _ & H).
    rewrite H; [reflexivity | discriminate | reflexivity].
Defined.

(** C10. Whatever the environment, the configuration check of the local
    provider ["ollama"] answers true, and its list of required variables
    is empty; hence the ["auto"] candidate list always contains
    ["ollama"] and is never empty. *)
Theorem ollama_keeps_auto_list_nonempty (env : Env) :
  isProviderConfigured env "ollama" = true
  /\ PROVIDER_ENV_VARS "ollama" = Some []
  /\ In "ollama" (providersToTry env "auto")
  /\ providersToTry env "auto" <> [].
Proof.
  split; [apply ollama_always_configured|].
  split; [reflexivity|].
  destruct (auto_candidates_end_with_ollama env) as [front E].
  rewrite E. split.
  - apply in_or_app. right. now left.
  - destruct front; discriminate.
Qed.

(** ** Error classification *)

Lemma classifyError_table (msg : string) :
  classifyError msg = firstMatch classificationTable msg.
Proof.
  unfold classifyError, classificationTable, firstMatch, existsb.
  rewrite !orb_false_r, !orb_assoc. reflexivity.
Qed.

Lemma classifyError_401 (msg : string) :
  Substring "401" msg -> classifyError msg = Authentication.
Proof.
  intros H. apply includes_iff_Substring in H.
  unfold classifyError. rewrite H. reflexivity.
Qed.

(** C4, as stated, fails: matching is case-sensitive.  The lower-case
    message ["unauthorized"] is Authentication for the taxonomy of the
    specification and Unknown for the code. *)
Lemma classification_not_case_insensitive :
  specClassify "unauthorized" = Authentication
  /\ classifyError "unauthorized" = Unknown
  /\ ~ (forall msg, classifyError msg = specClassify msg).
Proof.
  split; [reflexivity|]. split; [reflexivity|].
  intros H. specialize (H "unauthorized"). discriminate H.
Qed.

(** C4, amended.  Classification is case-sensitive substring matching
    against the raw message, in the fixed order Authentication (401,
    Unauthorized, Invalid API, Authentication, API key, not authorized),
    NotFound (404, not found), RateLimited (429, rate limit),
    ConnectionFailure (timeout, ECONNREFUSED), otherwise Unknown, first
    match winning; a message containing both 429 and 401 is
    Authentication. *)
Theorem classification_priority (msg : string) :
  classifyError msg
  = firstMatch
      [ (Authentication,
         ["401"; "Unauthorized"; "Invalid API"; "Authentication"; "API key";
          "not authorized"]);
        (NotFound, ["404"; "not found"]);
        (RateLimited, ["429"; "rate limit"]);
        (ConnectionFailure, ["timeout"; "ECONNREFUSED"]) ]
      msg
  /\ (Substring "429" msg -> Substring "401" msg ->
      classifyError msg = Authentication).
Proof.
  split.
  - apply classifyError_table.
  - intros _ H. now apply classifyError_401.
Qed.

Lemma classification_priority_witness :
  Substring "429" "HTTP 429 after 401"
  /\ Substring "401" "HTTP 429 after 401"
  /\ classifyError "HTTP 429 after 401" = Authentication.
Proof.
  assert (H429 : Substring "429" "HTTP 429 after 401")
    by (now exists "HTTP ", " after 401").
  assert (H401 : Substring "401" "HTTP 429 after 401")
    by (now exists "HTTP 429 after ", "").
  split; [exact H429|]. split; [exact H401|].
  exact (proj2 (classification_priority "HTTP 429 after 401") H429 H401).
Defined.

Arguments invokeProvider {World Options} callProvider provider request st.
Arguments testOllamaConnection {World} fetchOllamaTags st.
Arguments testProviderAvailability {World Options} callProvider fetchOllamaTags
  env providerName st.
Arguments attempt {World Options} now callProvider env prompt options
  startTime i currentProvider st.
Arguments tryProviders {World Options} now callProvider env prompt options
  startTime len i rest errors st.
Arguments generateWithProvider {World Options} now callProvider env
  providerName prompt options st.
Arguments postGenerate {World Options} now callProvider env body st.
Arguments updateUsageStats {World} usage st.
Arguments logRequest {World} st.
Arguments countError {World} st.
Arguments TestRequest {Options} model.
Arguments GenerateRequest {Options} prompt model options.
Arguments generateRequest {Options} env prompt options provider.
Arguments AllFail {World Options} callProvider env prompt options _ _ _ _.
Arguments FirstSuccess {World Options} callProvider env prompt options
  _ _ _ _ _ _.

(** ** The configuration check *)

Lemma existsb_none {A : Type} (f : A -> bool) (l : list A) :
  Forall (fun x => f x = false) l -> existsb f l = false.
Proof.
  induction 1 as [|x l Hx _ IH]; simpl; [reflexivity|].
  now rewrite Hx, IH.
Qed.

Lemma forallb_some_false {A : Type} (f : A -> bool) (l : list A) :
  Exists (fun x => f x = false) l -> forallb f l = false.
Proof.
  induction 1 as [x l Hx|x l _ IH]; simpl.
  - now rewrite Hx.
  - rewrite IH. apply andb_false_r.
Qed.

Lemma unset_variables_not_configured (env : Env) (providerName : string)
      (vars : list string) :
  providerName <> "ollama" ->
  PROVIDER_ENV_VARS providerName = Some vars ->
  (if providerName =? "vertex"
   then Forall (fun v => truthy (env v) = false) vars
   else Exists (fun v => truthy (env v) = false) vars) ->
  isProviderConfigured env providerName = false.
Proof.
  intros Hlocal Hvars Hunset. unfold isProviderConfigured.
  apply String.eqb_neq in Hlocal. rewrite Hlocal, Hvars.
  destruct (providerName =? "vertex").
  - now apply existsb_none.
  - now apply forallb_some_false.
Qed.

Lemma required_variables_listed (providerName : string) (vars : list string) :
  PROVIDER_ENV_VARS providerName = Some vars ->
  providerName <> "ollama" ->
  nonEmpty (join ", " vars) = true.
Proof.
  unfold PROVIDER_ENV_VARS. intros H Hlocal.
  repeat match type of H with
         | (if ?p =? ?q then _ else _) = _ =>
             destruct (String.eqb_spec p q) as [E|_];
             [ injection H as <-; try reflexivity; contradiction | ]
         end.
  discriminate.
Qed.

Section Prober.

Variables World Options : Type.
Variable callProvider : string -> Request Options -> World -> Outcome * World.
Variable fetchOllamaTags : World -> FetchOutcome * World.

(** C7. For a provider other than the local one whose required
    variables are not set -- every one of vertex's alternatives unset,
    some required one unset for the others -- the probe returns at once
    with [configured], [available] and [authenticated] false and the
    error "Missing required environment variables: " followed by the
    comma-separated list; the state, and with it the list of outside
    calls, is returned untouched. *)
Theorem probe_fast_fail (env : Env) (providerName : string)
        (vars : list string) (st : State World) :
  providerName <> "ollama" ->
  PROVIDER_ENV_VARS providerName = Some vars ->
  (if providerName =? "vertex"
   then Forall (fun v => truthy (env v) = false) vars
   else Exists (fun v => truthy (env v) = false) vars) ->
  testProviderAvailability callProvider fetchOllamaTags env providerName st
  = ({| Status.available := false;
        Status.configured := false;
        Status.authenticated := false;
        Status.model := getModelForProvider env providerName;
        Status.error :=
          Some ("Missing required environment variables: " ++ join ", " vars) |},
     st).
Proof.
  intros Hlocal Hvars Hunset.
  pose proof (unset_variables_not_configured env _ _ Hlocal Hvars Hunset) as Hcfg.
  pose proof (required_variables_listed _ _ Hvars Hlocal) as Hjoin.
  unfold testProviderAvailability.
  apply String.eqb_neq in Hlocal. rewrite Hlocal, Hcfg, Hvars.
  cbn [negb]. rewrite Hjoin. reflexivity.
Qed.

(** C8. In every status the probe builds, [available] implies
    [configured]; and [authenticated] holds without [available] exactly
    when the provider is not the local one, is configured, and its test
    request threw an error that classifies as rate-limited -- in which
    case the status is configured, authenticated, not available, with
    error "Rate limit exceeded". *)
Theorem status_implication_chain (env : Env) (providerName : string)
        (st : State World) :
  let status :=
    fst (testProviderAvailability callProvider fetchOllamaTags
           env providerName st) in
  let rateLimited :=
    providerName <> "ollama"
    /\ isProviderConfigured env providerName = true
    /\ exists error w,
        callProvider providerName
          (TestRequest (getModelForProvider env providerName)) (world st)
        = (Throws error, w)
        /\ classifyError (errorMessage error) = RateLimited in
  (Status.available status = true -> Status.configured status = true)
  /\ (~ rateLimited ->
      Status.authenticated status = true -> Status.available status = true)
  /\ (rateLimited ->
      Status.authenticated status = true
      /\ Status.available status = false
      /\ Status.configured status = true
      /\ Status.error status = Some "Rate limit exceeded").
Proof.
  intros status rateLimited. subst status rateLimited.
  unfold testProviderAvailability, testOllamaConnection, invokeProvider.
  destruct (String.eqb_spec providerName "ollama") as [Hlocal|Hlocal].
  - destruct (fetchOllamaTags (world st)) as [[err|ok] w]; cbn.
    + split; [discriminate|]. split; [discriminate|].
      intros [H _]. contradiction.
    + split; [auto|]. split; [auto|].
      intros [H _]. contradiction.
  - destruct (isProviderConfigured env providerName) eqn:Hcfg; cbn.
    + destruct (callProvider providerName
                  (TestRequest (getModelForProvider env providerName))
                  (world st)) as [[error|result] w] eqn:Hcall; cbn.
      * split; [discriminate|]. split.
        -- intros Hnot Hauth. exfalso. apply Hnot.
           split; [assumption|]. split; [reflexivity|].
           exists error, w. split; [reflexivity|].
           destruct (classifyError (errorMessage error));
             try discriminate; reflexivity.
        -- intros (_ & _ & error' & w' & Hcall' & Hkind).
           injection Hcall' as <- <-. rewrite Hkind. cbn. auto.
      * split; [auto|]. split; [auto|].
        intros (_ & _ & error' & w' & Hcall' & _). discriminate Hcall'.
    + split; [discriminate|]. split; [discriminate|].
      intros (_ & H & _). discriminate H.
Qed.

End Prober.

Lemma probe_fast_fail_witness :
  Status.configured
    (fst (testProviderAvailability (Demo.worldOf Demo.everyoneFails)
            Demo.ollamaDown Demo.env "azure" Demo.start)) = false
  /\ network (snd (testProviderAvailability (Demo.worldOf Demo.everyoneFails)
                     Demo.ollamaDown Demo.env "azure" Demo.start)) = [].
Proof.
  rewrite (probe_fast_fail Demo.World Demo.Options
             (Demo.worldOf Demo.everyoneFails) Demo.ollamaDown
             Demo.env "azure"
             ["AZURE_OPENAI_API_KEY"; "AZURE_OPENAI_ENDPOINT"] Demo.start).
  - split; reflexivity.
  - discriminate.
  - reflexivity.
  - apply Exists_cons_hd. reflexivity.
Defined.

Lemma status_implication_chain_witness :
  let status :=
    fst (testProviderAvailability (Demo.worldOf Demo.rateLimited)
           Demo.ollamaDown Demo.env "anthropic" Demo.start) in
  Status.authenticated status = true
  /\ Status.available status = false
  /\ Status.configured status = true
  /\ Status.error status = Some "Rate limit exceeded".
Proof.
  apply (status_implication_chain Demo.World Demo.Options
           (Demo.worldOf Demo.rateLimited) Demo.ollamaDown
           Demo.env "anthropic" Demo.start).
  split; [discriminate|]. split; [reflexivity|].
  exists (newError "429 Too Many Requests"), 1. split; reflexivity.
Defined.

Arguments afterCalls {World} st w called.

(** ** The fallback loop *)

Section Sequencer.

Variables World Options : Type.
Variable now : World -> Z.
Variable callProvider : string -> Request Options -> World -> Outcome * World.

Variable env : Env.
Variable prompt : string.
Variable options : Options.
Variable startTime : Z.

Local Abbreviation attempt' := (attempt now callProvider env prompt options startTime).
Local Abbreviation loop := (tryProviders now callProvider env prompt options startTime).

Lemma afterCalls_one (st : State World) (w1 : World) (p : string) :
  afterCalls st w1 [p]
  = {| world := w1;
       usageStats := usageStats st;
       network := network st ++ [ProviderCall p] |}.
Proof. reflexivity. Qed.

Lemma afterCalls_more (st : State World) (w1 w' : World) (p : string)
      (ps : list string) :
  afterCalls (afterCalls st w1 [p]) w' ps = afterCalls st w' (p :: ps).
Proof.
  unfold afterCalls. cbn [world usageStats network map].
  now rewrite <- app_assoc.
Qed.

Lemma updateUsageStats_network (usage : option Usage.t) (st : State World) :
  network (updateUsageStats usage st) = network st
  /\ world (updateUsageStats usage st) = world st.
Proof.
  unfold updateUsageStats.
  destruct usage as [[[[|n]|]]|]; split; reflexivity.
Qed.

Lemma attempt_caught (i : nat) (p : string) (st : State World)
      (outcome : Outcome) (w1 : World) (error : Thrown.t) :
  callProvider p (generateRequest env prompt options p) (world st) = (outcome, w1) ->
  checkResult outcome = inl error ->
  attempt' i p st = (inl error, afterCalls st w1 [p]).
Proof.
  intros Hcall Hchk. unfold attempt, invokeProvider.
  unfold generateRequest in Hcall. rewrite Hcall, Hchk. reflexivity.
Qed.

Lemma attempt_returned (i : nat) (p : string) (st : State World)
      (outcome : Outcome) (w1 : World) (text : string) (result : Payload.t) :
  callProvider p (generateRequest env prompt options p) (world st) = (outcome, w1) ->
  checkResult outcome = inr (text, result) ->
  attempt' i p st
  = (inr {| Generated.content := text;
            Generated.provider := p;
            Generated.model :=
              orElse (Payload.model result) (getModelForProvider env p);
            Generated.responseTime := (now w1 - startTime)%Z;
            Generated.usage := Payload.usage result;
            Generated.attemptedProviders := i + 1;
            Generated.fallbackUsed := (0 <? i)%nat |},
     updateUsageStats (Payload.usage result) (afterCalls st w1 [p])).
Proof.
  intros Hcall Hchk. unfold attempt, invokeProvider.
  unfold generateRequest in Hcall. rewrite Hcall, Hchk. reflexivity.
Qed.

Lemma checkResult_text_nonempty (outcome : Outcome) (text : string)
      (result : Payload.t) :
  checkResult outcome = inr (text, result) ->
  nonEmpty text = true /\ Payload.text result = Some text.
Proof.
  destruct outcome as [error|[r|]]; simpl; try discriminate.
  destruct (Payload.text r) as [[|c s]|] eqn:E; try discriminate.
  intros H. injection H as <- <-. now split.
Qed.

Lemma FirstSuccess_positive (cands : list string) (w : World) (K : nat)
      (text : string) (result : Payload.t) (w' : World) :
  FirstSuccess callProvider env prompt options cands w K text result w' ->
  1 <= K <= length cands.
Proof.
  induction 1; simpl; lia.
Qed.

(** Every candidate fails: the loop rejects with the count and the last
    message, after calling every candidate once, counters untouched. *)
Lemma loop_all_fail (len : nat) (rest : list string) :
  forall (i : nat) (errors : list string) (st : State World)
         (msgs : list string) (w' : World),
    AllFail callProvider env prompt options rest (world st) msgs w' ->
    rest <> [] ->
    i + length rest = len ->
    loop len i rest errors st
    = (Rejected (newError ("Failed after " ++ ofNat len
                           ++ " attempts. Last error: " ++ last msgs "")),
       afterCalls st w' rest).
Proof.
  induction rest as [|p ps IH]; intros i errors st msgs w' Hrun Hne Hlen.
  - contradiction.
  - inversion Hrun as [|p0 ps0 w0 outcome w1 error msgs' w0' Hcall Hchk Hrest];
      subst.
    cbn [tryProviders].
    rewrite (attempt_caught i p st outcome w1 error Hcall Hchk).
    destruct ps as [|q qs].
    + inversion Hrest; subst.
      replace (i =? i + length [p] - 1)%nat with true
        by (symmetry; apply Nat.eqb_eq; simpl; lia).
      reflexivity.
    + replace (i =? i + length (p :: q :: qs) - 1)%nat with false
        by (symmetry; apply Nat.eqb_neq; simpl; lia).
      rewrite (IH (i + 1) _ (afterCalls st w1 [p]) msgs' w').
      * rewrite afterCalls_more. f_equal. f_equal. f_equal. f_equal. f_equal.
        inversion Hrest; subst. reflexivity.
      * exact Hrest.
      * discriminate.
      * simpl. lia.
Qed.

(** Candidate [K] is the first to succeed: the loop returns its result
    after calling exactly the first [K] candidates. *)
Lemma loop_first_success (len : nat) (rest : list string) :
  forall (i : nat) (errors : list string) (st : State World) (K : nat)
         (text : string) (result : Payload.t) (w' : World),
    FirstSuccess callProvider env prompt options rest (world st) K text result w' ->
    i + length rest = len ->
    loop len i rest errors st
    = (Resolved
         {| Generated.content := text;
            Generated.provider := nth (K - 1) rest "";
            Generated.model :=
              orElse (Payload.model result)
                     (getModelForProvider env (nth (K - 1) rest ""));
            Generated.responseTime := (now w' - startTime)%Z;
            Generated.usage := Payload.usage result;
            Generated.attemptedProviders := i + K;
            Generated.fallbackUsed := (0 <? i + K - 1)%nat |},
       updateUsageStats (Payload.usage result)
                        (afterCalls st w' (firstn K rest))).
Proof.
  induction rest as [|p ps IH]; intros i errors st K text result w' Hrun Hlen.
  - inversion Hrun.
  - inversion Hrun as [p0 ps0 w0 outcome w1 text0 result0 Hcall Hchk
                      |p0 ps0 w0 outcome w1 error K' text0 result0 w0'
                          Hcall Hchk Hrest]; subst.
    + cbn [tryProviders].
      rewrite (attempt_returned i p st outcome w' text result Hcall Hchk).
      replace (i + 1 - 1) with i by lia. reflexivity.
    + cbn [tryProviders].
      rewrite (attempt_caught i p st outcome w1 error Hcall Hchk).
      pose proof (FirstSuccess_positive _ _ _ _ _ _ Hrest) as [HK1 HK2].
      replace (i =? i + length (p :: ps) - 1)%nat with false
        by (symmetry; apply Nat.eqb_neq; simpl; lia).
      rewrite (IH (i + 1) _ (afterCalls st w1 [p]) K' text result w' Hrest)
        by (simpl; lia).
      destruct K' as [|k]; [lia|].
      replace (S (S k) - 1) with (S k) by lia.
      replace (S k - 1) with k by lia.
      replace (i + 1 + S k) with (i + S (S k)) by lia.
      cbn [nth firstn]. rewrite afterCalls_more. reflexivity.
Qed.

Lemma loop_resolved_content (len : nat) (rest : list string) :
  forall (i : nat) (errors : list string) (st st' : State World)
         (generated : Generated.t),
    loop len i rest errors st = (Resolved generated, st') ->
    nonEmpty (Generated.content generated) = true.
Proof.
  induction rest as [|p ps IH]; intros i errors st st' generated H.
  - discriminate H.
  - cbn [tryProviders] in H. unfold attempt, invokeProvider in H.
    destruct (callProvider p _ (world st)) as [outcome w1].
    destruct (checkResult outcome) as [error|[text result]] eqn:Hchk.
    + destruct (i =? len - 1)%nat; [discriminate H|].
      exact (IH _ _ _ _ _ H).
    + injection H as <- _. cbn.
      now destruct (checkResult_text_nonempty _ _ _ Hchk).
Qed.

End Sequencer.

(** ** [generateWithProvider] and the [/api/generate] route *)

Lemma fallback_flag (K : nat) : (0 <? 0 + K - 1)%nat = (1 <? K)%nat.
Proof. destruct K as [|[|k]]; reflexivity. Qed.

Section Generate.

Variables World Options : Type.
Variable now : World -> Z.
Variable callProvider : string -> Request Options -> World -> Outcome * World.

Lemma generate_all_fail (env : Env) (providerName prompt : string)
      (options : Options) (st : State World) (msgs : list string) (w' : World) :
  AllFail callProvider env prompt options
          (providersToTry env providerName) (world st) msgs w' ->
  generateWithProvider now callProvider env providerName prompt options st
  = (Rejected
       (newError ("Failed after "
                  ++ ofNat (length (providersToTry env providerName))
                  ++ " attempts. Last error: " ++ last msgs "")),
     afterCalls st w' (providersToTry env providerName)).
Proof.
  intros Hrun. unfold generateWithProvider.
  apply (loop_all_fail World Options now callProvider env prompt options
           (now (world st)) (length (providersToTry env providerName)));
    [exact Hrun | apply providersToTry_nonempty | reflexivity].
Qed.

Lemma generate_first_success (env : Env) (providerName prompt : string)
      (options : Options) (st : State World) (K : nat) (text : string)
      (result : Payload.t) (w' : World) :
  let candidates := providersToTry env providerName in
  FirstSuccess callProvider env prompt options candidates (world st)
               K text result w' ->
  generateWithProvider now callProvider env providerName prompt options st
  = (Resolved
       {| Generated.content := text;
          Generated.provider := nth (K - 1) candidates "";
          Generated.model :=
            orElse (Payload.model result)
                   (getModelForProvider env (nth (K - 1) candidates ""));
          Generated.responseTime := (now w' - now (world st))%Z;
          Generated.usage := Payload.usage result;
          Generated.attemptedProviders := K;
          Generated.fallbackUsed := (1 <? K)%nat |},
     updateUsageStats (Payload.usage result)
                      (afterCalls st w' (firstn K candidates))).
Proof.
  intros candidates Hrun. unfold generateWithProvider. fold candidates.
  rewrite (loop_first_success World Options now callProvider env prompt options
             (now (world st)) (length candidates) candidates
             0 [] st K text result w' Hrun eq_refl).
  rewrite fallback_flag. reflexivity.
Qed.

(** C3. When candidate [K] of the candidate list is the first whose call
    returns a non-empty text, [generateWithProvider] resolves with that
    text: exactly the first [K] candidates have been called, the result
    comes from candidate [K], [attemptedProviders] is [K] and
    [fallbackUsed] is true exactly when [K > 1]. *)
Theorem first_success_wins (env : Env) (providerName prompt : string)
        (options : Options) (st : State World) (K : nat) (text : string)
        (result : Payload.t) (w' : World) :
  FirstSuccess callProvider env prompt options
               (providersToTry env providerName) (world st) K text result w' ->
  exists generated st',
    generateWithProvider now callProvider env providerName prompt options st
    = (Resolved generated, st')
    /\ Generated.content generated = text
    /\ nth_error (providersToTry env providerName) (K - 1)
       = Some (Generated.provider generated)
    /\ Generated.attemptedProviders generated = K
    /\ Generated.fallbackUsed generated = (1 <? K)%nat
    /\ network st'
       = (network st
          ++ map ProviderCall (firstn K (providersToTry env providerName)))%list
    /\ world st' = w'.
Proof.
  intros Hrun.
  pose proof (FirstSuccess_positive _ _ _ _ _ _ _ _ _ _ _ _ Hrun) as [HK1 HK2].
  rewrite (generate_first_success env providerName prompt options st
             K text result w' Hrun).
  eexists. eexists. split; [reflexivity|].
  cbn [Generated.content Generated.provider Generated.attemptedProviders
       Generated.fallbackUsed].
  split; [reflexivity|].
  split; [apply nth_error_nth'; lia|].
  split; [reflexivity|].
  split; [reflexivity|].
  destruct (updateUsageStats_network World (Payload.usage result)
              (afterCalls st w' (firstn K (providersToTry env providerName))))
    as [Hnet Hworld].
  rewrite Hnet, Hworld. split; reflexivity.
Qed.

(** C6. A candidate whose call returns no payload, or a payload whose
    text is missing or empty, ends in [catch] like a thrown error: when
    it is not the last candidate the loop goes on with the next one, when
    it is the last the call is rejected; and no run of the loop resolves
    with an empty content. *)
Theorem empty_text_is_failure (env : Env) (prompt : string) (options : Options)
        (startTime : Z) (len i : nat) (p : string) (rest : list string)
        (errors : list string) (st : State World)
        (result : option Payload.t) (w1 : World) :
  callProvider p (generateRequest env prompt options p) (world st)
  = (Returns result, w1) ->
  (result = None
   \/ exists r, result = Some r /\ truthy (Payload.text r) = false) ->
  let invalid := "Provider returned null or invalid response" in
  let st1 := afterCalls st w1 [p] in
  attempt now callProvider env prompt options startTime i p st
  = (inl (newError invalid), st1)
  /\ (i <> len - 1 ->
      tryProviders now callProvider env prompt options startTime
                   len i (p :: rest) errors st
      = tryProviders now callProvider env prompt options startTime
                     len (i + 1) rest
                     (List.app errors [p ++ ": " ++ invalid]) st1)
  /\ (i = len - 1 ->
      tryProviders now callProvider env prompt options startTime
                   len i (p :: rest) errors st
      = (Rejected (newError ("Failed after " ++ ofNat len
                             ++ " attempts. Last error: " ++ invalid)),
         st1))
  /\ (forall generated st',
         tryProviders now callProvider env prompt options startTime
                      len i (p :: rest) errors st
         = (Resolved generated, st') ->
         nonEmpty (Generated.content generated) = true).
Proof.
  intros Hcall Hempty invalid st1.
  assert (Hchk : checkResult (Returns result) = inl (newError invalid)).
  { destruct Hempty as [->|(r & -> & Htext)]; [reflexivity|].
    simpl. destruct (Payload.text r) as [[|c s]|]; try reflexivity.
    discriminate Htext. }
  pose proof (attempt_caught World Options now callProvider env prompt options
                startTime i p st _ _ _ Hcall Hchk) as Hattempt.
  split; [exact Hattempt|].
  split; [|split].
  - intros Hnotlast. cbn [tryProviders]. rewrite Hattempt.
    apply Nat.eqb_neq in Hnotlast. rewrite Hnotlast. reflexivity.
  - intros Hlast. cbn [tryProviders]. rewrite Hattempt.
    apply Nat.eqb_eq in Hlast. rewrite Hlast. reflexivity.
  - intros generated st'.
    apply (loop_resolved_content World Options now callProvider env prompt
             options startTime).
Qed.

(** C9. One [POST /api/generate] whose winning candidate reports a usage
    of 57 total tokens adds exactly 57 to [totalTokens] and exactly 1 to
    [requests], however many candidates were tried; one request in which
    every candidate fails adds exactly 1 to [errors] (and 1 to
    [requests]) and leaves [totalTokens] as it was. *)
Theorem usage_accounting (env : Env) (body : GenerateBody Options)
        (prompt : string) (st : State World) :
  body_prompt body = Some prompt ->
  nonEmpty prompt = true ->
  let provider :=
    match body_provider body with
    | Some p => p
    | None => "auto"
    end in
  let candidates := providersToTry env provider in
  let before := usageStats st in
  (forall K text result w',
      FirstSuccess callProvider env prompt (body_options body)
                   candidates (world st) K text result w' ->
      Payload.usage result = Some {| Usage.totalTokens := Some 57 |} ->
      exists generated st',
        postGenerate now callProvider env body st = (Ok200 generated, st')
        /\ UsageStats.totalTokens (usageStats st')
           = UsageStats.totalTokens before + 57
        /\ UsageStats.requests (usageStats st')
           = UsageStats.requests before + 1
        /\ UsageStats.errors (usageStats st') = UsageStats.errors before)
  /\ (forall msgs w',
         AllFail callProvider env prompt (body_options body)
                 candidates (world st) msgs w' ->
         exists message st',
           postGenerate now callProvider env body st
           = (Failure500 message provider, st')
           /\ UsageStats.errors (usageStats st')
              = UsageStats.errors before + 1
           /\ UsageStats.totalTokens (usageStats st')
              = UsageStats.totalTokens before
           /\ UsageStats.requests (usageStats st')
              = UsageStats.requests before + 1).
Proof.
  intros Hprompt Hnonempty provider candidates before.
  subst provider candidates before.
  destruct prompt as [|c s]; [discriminate Hnonempty|].
  split.
  - intros K text result w' Hrun Husage.
    unfold postGenerate. cbv zeta. rewrite Hprompt.
    change (world st) with (world (logRequest st)) in Hrun.
    rewrite (generate_first_success env _ (String c s) (body_options body)
               (logRequest st) K text result w' Hrun).
    eexists. eexists. split; [reflexivity|].
    rewrite Husage. cbn. auto.
  - intros msgs w' Hrun.
    unfold postGenerate. cbv zeta. rewrite Hprompt.
    change (world st) with (world (logRequest st)) in Hrun.
    rewrite (generate_all_fail env _ (String c s)
               (body_options body) (logRequest st) msgs w' Hrun).
    eexists. eexists. split; [reflexivity|]. cbn. auto.
Qed.

End Generate.

(** ** Runs in the concrete world *)

Lemma demo_second_candidate_wins :
  FirstSuccess (Demo.worldOf Demo.anthropicAnswers) Demo.env "Hi" tt
               (providersToTry Demo.env "openai") 0 2 "Hello there"
               {| Payload.text := Some "Hello there";
                  Payload.model := None;
                  Payload.usage := Some {| Usage.totalTokens := Some 57 |} |}
               2.
Proof.
  change (providersToTry Demo.env "openai")
    with ["openai"; "anthropic"; "ollama"].
  eapply FirstSuccess_later; [reflexivity | reflexivity |].
  eapply FirstSuccess_here; reflexivity.
Defined.

Lemma demo_everyone_fails :
  AllFail (Demo.worldOf Demo.everyoneFails) Demo.env "Hi" tt
          (providersToTry Demo.env "openai") 0
          ["401 Unauthorized"; "quota exhausted";
           "connect ECONNREFUSED 127.0.0.1:11434"]
          3.
Proof.
  change (providersToTry Demo.env "openai")
    with ["openai"; "anthropic"; "ollama"].
  eapply AllFail_cons with (error := newError "401 Unauthorized");
    [reflexivity | reflexivity |].
  eapply AllFail_cons with (error := newError "quota exhausted");
    [reflexivity | reflexivity |].
  eapply AllFail_cons
    with (error := newError "connect ECONNREFUSED 127.0.0.1:11434");
    [reflexivity | reflexivity |].
  apply AllFail_nil.
Defined.

(** C1, on the code.  Requested provider [openai] with [anthropic]
    configured and fallback on: the three candidates openai, anthropic
    and ollama are each called once and each throws.  The call is
    rejected with a message that gives the count and the last message
    only; neither the provider names nor the earlier messages occur in
    it. *)
Theorem aggregate_error_keeps_last_message_only :
  let run :=
    generateWithProvider Demo.now (Demo.worldOf Demo.everyoneFails)
                         Demo.env "openai" "Hi" tt Demo.start in
  let message :=
    "Failed after 3 attempts. Last error: connect ECONNREFUSED 127.0.0.1:11434" in
  network (snd run)
  = [ProviderCall "openai"; ProviderCall "anthropic"; ProviderCall "ollama"]
  /\ fst run = Rejected (newError message)
  /\ includes "openai" message = false
  /\ includes "anthropic" message = false
  /\ includes "ollama" message = false
  /\ includes "401 Unauthorized" message = false
  /\ includes "quota exhausted" message = false.
Proof.
  cbv zeta. rewrite (generate_all_fail Demo.World Demo.Options Demo.now
                       (Demo.worldOf Demo.everyoneFails) Demo.env "openai" "Hi"
                       tt Demo.start _ _ demo_everyone_fails).
  split; [reflexivity|]. split; [reflexivity|].
  split; [reflexivity|]. split; [reflexivity|].
  split; [reflexivity|]. split; reflexivity.
Qed.

Lemma first_success_wins_witness :
  exists generated st',
    generateWithProvider Demo.now (Demo.worldOf Demo.anthropicAnswers)
                         Demo.env "openai" "Hi" tt Demo.start
    = (Resolved generated, st')
    /\ Generated.content generated = "Hello there"
    /\ nth_error (providersToTry Demo.env "openai") (2 - 1)
       = Some (Generated.provider generated)
    /\ Generated.attemptedProviders generated = 2
    /\ Generated.fallbackUsed generated = (1 <? 2)%nat
    /\ network st'
       = (network Demo.start
          ++ map ProviderCall (firstn 2 (providersToTry Demo.env "openai")))%list
    /\ world st' = 2.
Proof.
  exact (first_success_wins Demo.World Demo.Options Demo.now
           (Demo.worldOf Demo.anthropicAnswers) Demo.env "openai" "Hi" tt
           Demo.start 2 "Hello there" _ 2 demo_second_candidate_wins).
Defined.

Lemma empty_text_is_failure_witness :
  let invalid := "Provider returned null or invalid response" in
  attempt Demo.now (Demo.worldOf Demo.anthropicAnswers) Demo.env "Hi" tt
          1000 0 "openai" Demo.start
  = (inl (newError invalid), afterCalls Demo.start 1 ["openai"])
  /\ tryProviders Demo.now (Demo.worldOf Demo.anthropicAnswers) Demo.env "Hi" tt
                  1000 3 0 ["openai"; "anthropic"; "ollama"] [] Demo.start
     = tryProviders Demo.now (Demo.worldOf Demo.anthropicAnswers) Demo.env "Hi" tt
                    1000 3 1 ["anthropic"; "ollama"]
                    ["openai: Provider returned null or invalid response"]
                    (afterCalls Demo.start 1 ["openai"]).
Proof.
  destruct (empty_text_is_failure Demo.World Demo.Options Demo.now
              (Demo.worldOf Demo.anthropicAnswers) Demo.env "Hi" tt 1000
              3 0 "openai" ["anthropic"; "ollama"] [] Demo.start
              (Some {| Payload.text := Some "";
                       Payload.model := None;
                       Payload.usage := Some {| Usage.totalTokens := Some 12 |} |})
              1 eq_refl)
    as (Hattempt & Hnext & _).
  - right. eexists. split; reflexivity.
  - split; [exact Hattempt|]. apply Hnext. discriminate.
Defined.

Lemma usage_accounting_witness :
  (exists generated st',
      postGenerate Demo.now (Demo.worldOf Demo.anthropicAnswers) Demo.env
                   (Demo.body "openai" "Hi") Demo.start
      = (Ok200 generated, st')
      /\ UsageStats.totalTokens (usageStats st') = 0 + 57
      /\ UsageStats.requests (usageStats st') = 0 + 1
      /\ UsageStats.errors (usageStats st') = 0)
  /\ (exists message st',
         postGenerate Demo.now (Demo.worldOf Demo.everyoneFails) Demo.env
                      (Demo.body "openai" "Hi") Demo.start
         = (Failure500 message "openai", st')
         /\ UsageStats.errors (usageStats st') = 0 + 1
         /\ UsageStats.totalTokens (usageStats st') = 0
         /\ UsageStats.requests (usageStats st') = 0 + 1).
Proof.
  split.
  - exact (proj1 (usage_accounting Demo.World Demo.Options Demo.now
                    (Demo.worldOf Demo.anthropicAnswers) Demo.env
                    (Demo.body "openai" "Hi") "Hi" Demo.start eq_refl eq_refl)
                 2 "Hello there" _ 2 demo_second_candidate_wins eq_refl).
  - exact (proj2 (usage_accounting Demo.World Demo.Options Demo.now
                    (Demo.worldOf Demo.everyoneFails) Demo.env
                    (Demo.body "openai" "Hi") "Hi" Demo.start eq_refl eq_refl)
                 _ 3 demo_everyone_fails).
Defined.

(** * Further properties of the server *)

Arguments probeEach {World Options} callProvider fetchOllamaTags env names st.
Arguments getStatus {World Options} callProvider fetchOllamaTags env st.
Arguments benchmarkEach {World Options} now callProvider benchmarkOptions
  env names st.
Arguments postBenchmark {World Options} now callProvider benchmarkOptions env st.
Arguments errorMiddleware {World} error errorStatusCode st.
Arguments postBusinessEmail {World Options} now callProvider emailOptions
  env type context st.
Arguments postSchema {World Options} now callProvider schemaOptions {Json}
  jsonParse env type st.
Arguments SchemaOk {Json} structuredData rawText provider usage schema.
Arguments SchemaError {Json} error.

(** ** Candidate lists once more *)

Lemma ALL_PROVIDERS_NoDup : NoDup ALL_PROVIDERS.
Proof.
  unfold ALL_PROVIDERS.
  repeat (constructor; [simpl; intuition discriminate|]).
  constructor.
Qed.

Lemma filter_length_bound {A : Type} (f : A -> bool) (l : list A) :
  length (filter f l) <= length l.
Proof.
  induction l as [|x l IH]; simpl; [lia|].
  destruct (f x); simpl; lia.
Qed.

Lemma explicit_candidates_head (env : Env) (providerName : string) :
  providerName <> "auto" ->
  exists others,
    providersToTry env providerName = providerName :: others
    /\ ~ In providerName others
    /\ NoDup others
    /\ length others <= 9.
Proof.
  intros Hname. unfold providersToTry.
  apply String.eqb_neq in Hname. rewrite Hname.
  destruct (negb _).
  - eexists. split; [reflexivity|]. split; [|split].
    + intros Hin. apply filter_In in Hin. destruct Hin as [_ Hf].
      rewrite String.eqb_refl in Hf. discriminate Hf.
    + apply NoDup_filter, ALL_PROVIDERS_NoDup.
    + apply (filter_length_bound _ ALL_PROVIDERS).
  - exists []. split; [reflexivity|]. split; [auto|].
    split; [constructor | simpl; lia].
Qed.

Lemma explicit_candidates_with_fallback (env : Env) (providerName : string) :
  providerName <> "auto" ->
  env "ENABLE_FALLBACK" <> Some "false" ->
  providersToTry env providerName
  = providerName
      :: filter (fun p => negb (p =? providerName) && isProviderConfigured env p)
                ALL_PROVIDERS.
Proof.
  intros Hname Hfb. unfold providersToTry.
  apply String.eqb_neq in Hname. rewrite Hname.
  destruct (env "ENABLE_FALLBACK") as [v|]; [|reflexivity].
  assert (Hv : (v =? "false") = false) by (apply String.eqb_neq; congruence).
  rewrite Hv. reflexivity.
Qed.

Lemma providersToTry_NoDup (env : Env) (providerName : string) :
  NoDup (providersToTry env providerName).
Proof.
  destruct (String.eqb_spec providerName "auto") as [->|Hname].
  - apply NoDup_filter, ALL_PROVIDERS_NoDup.
  - destruct (explicit_candidates_head env providerName Hname)
      as (others & -> & Hnotin & Hnodup & _).
    now constructor.
Qed.

Lemma providersToTry_length (env : Env) (providerName : string) :
  length (providersToTry env providerName) <= 10.
Proof.
  destruct (String.eqb_spec providerName "auto") as [->|Hname].
  - pose proof (filter_length_bound (fun p => isProviderConfigured env p)
                  ALL_PROVIDERS) as H.
    unfold providersToTry. change ("auto" =? "auto") with true. cbv iota.
    simpl length in H at 2. lia.
  - destruct (explicit_candidates_head env providerName Hname)
      as (others & -> & _ & _ & Hlen).
    simpl. lia.
Qed.

Lemma updateUsageStats_effect {World : Type} (usage : option Usage.t)
      (st : State World) :
  let before := usageStats st in
  let after := usageStats (updateUsageStats usage st) in
  UsageStats.requests after = UsageStats.requests before
  /\ UsageStats.errors after = UsageStats.errors before
  /\ UsageStats.providers after = UsageStats.providers before
  /\ UsageStats.totalTokens after
     = UsageStats.totalTokens before + tokensOf usage.
Proof.
  destruct usage as [[[[|n]|]]|]; cbn; auto using Nat.add_0_r.
  all: repeat split; auto; lia.
Qed.

(** ** Every run of [generateWithProvider] *)

Section GenerateFacts.

Variables World Options : Type.
Variable now : World -> Z.
Variable callProvider : string -> Request Options -> World -> Outcome * World.

(** From any world, a candidate list either has a first success or
    fails throughout. *)
Lemma run_cases (env : Env) (prompt : string) (options : Options)
      (cands : list string) :
  forall w : World,
    (exists K text result w',
        FirstSuccess callProvider env prompt options cands w K text result w')
    \/ (exists msgs w',
           AllFail callProvider env prompt options cands w msgs w').
Proof.
  induction cands as [|p ps IH]; intros w.
  - right. exists [], w. constructor.
  - destruct (callProvider p (generateRequest env prompt options p) w)
      as [outcome w1] eqn:Hcall.
    destruct (checkResult outcome) as [error|[text result]] eqn:Hchk.
    + destruct (IH w1) as [(K & text & result & w' & Hrun)|(msgs & w' & Hrun)].
      * left. exists (S K), text, result, w'.
        eapply FirstSuccess_later; eassumption.
      * right. exists (errorMessage error :: msgs), w'.
        eapply AllFail_cons; eassumption.
    + left. exists 1, text, result, w1.
      eapply FirstSuccess_here; eassumption.
Qed.

(** The two ways a call can end, with the state it leaves. *)
Lemma generate_summary (env : Env) (providerName prompt : string)
      (options : Options) (st : State World) :
  let cands := providersToTry env providerName in
  (exists K text result w',
      1 <= K <= length cands
      /\ nonEmpty text = true
      /\ generateWithProvider now callProvider env providerName prompt options st
         = (Resolved
              {| Generated.content := text;
                 Generated.provider := nth (K - 1) cands "";
                 Generated.model :=
                   orElse (Payload.model result)
                          (getModelForProvider env (nth (K - 1) cands ""));
                 Generated.responseTime := (now w' - now (world st))%Z;
                 Generated.usage := Payload.usage result;
                 Generated.attemptedProviders := K;
                 Generated.fallbackUsed := (1 <? K)%nat |},
            updateUsageStats (Payload.usage result)
                             (afterCalls st w' (firstn K cands))))
  \/ (exists msgs w',
         generateWithProvider now callProvider env providerName prompt options st
         = (Rejected
              (newError ("Failed after " ++ ofNat (length cands)
                         ++ " attempts. Last error: " ++ last msgs "")),
            afterCalls st w' cands)).
Proof.
  intros cands.
  destruct (run_cases env prompt options cands (world st))
    as [(K & text & result & w' & Hrun)|(msgs & w' & Hrun)].
  - left. exists K, text, result, w'.
    split; [exact (FirstSuccess_positive _ _ _ _ _ _ _ _ _ _ _ _ Hrun)|].
    split.
    + clear - Hrun. induction Hrun as [? ? ? ? ? ? ? _ Hchk|]; [|assumption].
      now destruct (checkResult_text_nonempty _ _ _ Hchk).
    + exact (generate_first_success World Options now callProvider env
               providerName prompt options st K text result w' Hrun).
  - right. exists msgs, w'.
    exact (generate_all_fail World Options now callProvider env providerName
             prompt options st msgs w' Hrun).
Qed.

(** X1. A call of [generateWithProvider] never resolves to [undefined];
    when it resolves, its [content] is non-empty and its [provider] is
    one of the candidates. *)
Theorem generate_never_resolves_undefined (env : Env)
        (providerName prompt : string) (options : Options) (st : State World) :
  let run :=
    generateWithProvider now callProvider env providerName prompt options st in
  fst run <> ResolvedUndefined
  /\ forall generated,
      fst run = Resolved generated ->
      nonEmpty (Generated.content generated) = true
      /\ In (Generated.provider generated) (providersToTry env providerName).
Proof.
  cbv zeta.
  destruct (generate_summary env providerName prompt options st)
    as [(K & text & result & w' & HK & Htext & ->)|(msgs & w' & ->)];
    cbn [fst].
  - split; [discriminate|]. intros generated Hresolved.
    injection Hresolved as <-. cbn [Generated.content Generated.provider].
    split; [exact Htext|]. apply nth_In. lia.
  - split; discriminate.
Qed.

Lemma generate_calls_summary (env : Env) (providerName prompt : string)
        (options : Options) (st : State World) :
  let cands := providersToTry env providerName in
  let run :=
    generateWithProvider now callProvider env providerName prompt options st in
  exists k,
    1 <= k <= length cands
    /\ network (snd run)
       = (network st ++ map ProviderCall (firstn k cands))%list
    /\ match fst run with
       | Resolved generated =>
           Generated.attemptedProviders generated = k
           /\ nth_error cands (k - 1) = Some (Generated.provider generated)
       | Rejected _ => k = length cands
       | ResolvedUndefined => False
       end.
Proof.
  cbv zeta.
  pose proof (providersToTry_nonempty env providerName) as Hne.
  destruct (generate_summary env providerName prompt options st)
    as [(K & text & result & w' & HK & _ & ->)|(msgs & w' & ->)].
  - exists K. split; [exact HK|]. cbn [fst snd]. split.
    + now destruct (updateUsageStats_network World (Payload.usage result)
                      (afterCalls st w' (firstn K (providersToTry env providerName)))).
    + split; [reflexivity|]. apply nth_error_nth'. lia.
  - exists (length (providersToTry env providerName)). cbn [fst snd].
    split.
    + destruct (providersToTry env providerName); [contradiction|simpl; lia].
    + rewrite firstn_all. split; reflexivity.
Qed.

(** X2. The providers a call invokes are the first [k] candidates, in
    order, for some [k] between 1 and the length of the list.  When the
    call resolves, [k] is [attemptedProviders] and the answering provider
    is candidate [k]; when it rejects with the message "Failed after N
    attempts. Last error: ...", every candidate was invoked. *)
Theorem generate_calls_prefix (env : Env) (providerName prompt : string)
        (options : Options) (st : State World) :
  let cands := providersToTry env providerName in
  let run :=
    generateWithProvider now callProvider env providerName prompt options st in
  exists k,
    1 <= k <= length cands
    /\ network (snd run)
       = (network st ++ map ProviderCall (firstn k cands))%list
    /\ (forall generated,
           fst run = Resolved generated ->
           Generated.attemptedProviders generated = k
           /\ nth_error cands (k - 1) = Some (Generated.provider generated))
    /\ (forall lastMessage,
           fst run
           = Rejected (newError ("Failed after " ++ ofNat (length cands)
                                 ++ " attempts. Last error: " ++ lastMessage)) ->
           k = length cands).
Proof.
  cbv zeta.
  destruct (generate_calls_summary env providerName prompt options st)
    as (k & Hk & Hnet & Hend).
  exists k. split; [exact Hk|]. split; [exact Hnet|].
  split.
  - intros generated Hresolved. rewrite Hresolved in Hend. exact Hend.
  - intros lastMessage Hrejected. rewrite Hrejected in Hend. exact Hend.
Qed.

(** X3. The candidate list never names a provider twice and has between
    one and ten entries, so one call invokes no provider more than once
    and makes between one and ten provider calls. *)
Theorem no_provider_called_twice (env : Env) (providerName prompt : string)
        (options : Options) (st : State World) :
  let cands := providersToTry env providerName in
  let run :=
    generateWithProvider now callProvider env providerName prompt options st in
  NoDup cands
  /\ 1 <= length cands <= 10
  /\ exists called,
      network (snd run) = (network st ++ map ProviderCall called)%list
      /\ NoDup called
      /\ 1 <= length called <= 10.
Proof.
  cbv zeta. split; [apply providersToTry_NoDup|].
  pose proof (providersToTry_length env providerName) as Hlen.
  pose proof (providersToTry_nonempty env providerName) as Hne.
  split.
  - split; [|exact Hlen].
    destruct (providersToTry env providerName); [contradiction | simpl; lia].
  - destruct (generate_calls_summary env providerName prompt options st)
      as (k & Hk & Hnet & _).
    exists (firstn k (providersToTry env providerName)).
    split; [exact Hnet|]. split.
    + pose proof (providersToTry_NoDup env providerName) as Hnodup.
      rewrite <- (firstn_skipn k (providersToTry env providerName)) in Hnodup.
      exact (NoDup_app_remove_r _ _ Hnodup).
    + rewrite length_firstn. lia.
Qed.

(** X4. [generateWithProvider] never touches [requests], [errors] or
    [providers]; when it resolves it adds the token total of the returned
    usage (nothing when the usage or its total is missing) to
    [totalTokens], and when it rejects [totalTokens] is unchanged. *)
Theorem generate_usage_effect (env : Env) (providerName prompt : string)
        (options : Options) (st : State World) :
  let run :=
    generateWithProvider now callProvider env providerName prompt options st in
  let before := usageStats st in
  let after := usageStats (snd run) in
  UsageStats.requests after = UsageStats.requests before
  /\ UsageStats.errors after = UsageStats.errors before
  /\ UsageStats.providers after = UsageStats.providers before
  /\ UsageStats.totalTokens after
     = UsageStats.totalTokens before
       + match fst run with
         | Resolved generated => tokensOf (Generated.usage generated)
         | _ => 0
         end.
Proof.
  cbv zeta.
  destruct (generate_summary env providerName prompt options st)
    as [(K & text & result & w' & _ & _ & ->)|(msgs & w' & ->)];
    cbn [fst snd].
  - exact (updateUsageStats_effect (Payload.usage result)
             (afterCalls st w' (firstn K (providersToTry env providerName)))).
  - cbn. auto.
Qed.

(** X5. In a resolved call [fallbackUsed] is false exactly when the
    answer comes from the first candidate; for an explicitly requested
    provider, exactly when the answering provider is the requested one. *)
Theorem fallback_used_iff_other_provider (env : Env)
        (providerName prompt : string) (options : Options)
        (st st' : State World) (generated : Generated.t) :
  generateWithProvider now callProvider env providerName prompt options st
  = (Resolved generated, st') ->
  (Generated.fallbackUsed generated = false
   <-> Generated.provider generated = hd "" (providersToTry env providerName))
  /\ (providerName <> "auto" ->
      (Generated.fallbackUsed generated = false
       <-> Generated.provider generated = providerName)).
Proof.
  intros Hrun.
  assert (Hfirst : Generated.fallbackUsed generated = false
                   <-> Generated.provider generated
                       = hd "" (providersToTry env providerName)).
  { destruct (generate_summary env providerName prompt options st)
      as [(K & text & result & w' & HK & _ & E)|(msgs & w' & E)];
      rewrite E in Hrun; [|discriminate Hrun].
    injection Hrun as <- _. cbn [Generated.fallbackUsed Generated.provider].
    pose proof (providersToTry_NoDup env providerName) as Hnodup.
    rewrite Nat.ltb_ge. split.
    - intros HK1. replace K with 1 by lia.
      destruct (providersToTry env providerName); reflexivity.
    - intros Hsame.
      assert (K - 1 = 0); [|lia].
      apply (proj1 (NoDup_nth (providersToTry env providerName) "") Hnodup);
        [lia | lia |].
      rewrite Hsame. destruct (providersToTry env providerName); reflexivity. }
  split; [exact Hfirst|].
  intros Hname.
  destruct (explicit_candidates_head env providerName Hname)
    as (others & E & _).
  rewrite E in Hfirst. exact Hfirst.
Qed.

End GenerateFacts.

(** ** Configuration and models *)

Lemma forallb_monotone {A : Type} (f g : A -> bool) (l : list A) :
  (forall x, f x = true -> g x = true) ->
  forallb f l = true -> forallb g l = true.
Proof.
  intros Hfg. induction l as [|x l IH]; simpl; [reflexivity|].
  intros H. apply andb_true_iff in H. destruct H as [Hx Hl].
  now rewrite (Hfg _ Hx), (IH Hl).
Qed.

Lemma existsb_monotone {A : Type} (f g : A -> bool) (l : list A) :
  (forall x, f x = true -> g x = true) ->
  existsb f l = true -> existsb g l = true.
Proof.
  intros Hfg. induction l as [|x l IH]; simpl; [discriminate|].
  intros H. apply orb_true_iff in H. destruct H as [Hx|Hl].
  - now rewrite (Hfg _ Hx).
  - rewrite (IH Hl). apply orb_true_r.
Qed.

(** X6. Setting further variables never unconfigures a provider: if
    every variable that is set (non-empty) in [env] is set in [env'],
    every provider configured under [env] is configured under [env'],
    and every ["auto"] candidate of [env] is one of [env']. *)
Theorem configuration_monotone (env env' : Env) :
  (forall name, truthy (env name) = true -> truthy (env' name) = true) ->
  (forall provider,
      isProviderConfigured env provider = true ->
      isProviderConfigured env' provider = true)
  /\ incl (providersToTry env "auto") (providersToTry env' "auto").
Proof.
  intros Hsub.
  assert (Hmono : forall provider,
             isProviderConfigured env provider = true ->
             isProviderConfigured env' provider = true).
  { intros provider. unfold isProviderConfigured.
    destruct (provider =? "ollama"); [auto|].
    destruct (provider =? "vertex").
    - apply existsb_monotone. intros v. apply Hsub.
    - apply forallb_monotone. intros v. apply Hsub. }
  split; [exact Hmono|].
  unfold providersToTry. change ("auto" =? "auto") with true. cbv iota.
  intros p Hin. apply filter_In in Hin. destruct Hin as [Hall Hcfg].
  apply filter_In. split; [exact Hall | now apply Hmono].
Qed.

Lemma configuration_monotone_witness :
  isProviderConfigured Demo.envTwo "anthropic" = true
  /\ incl (providersToTry Demo.env "auto") (providersToTry Demo.envTwo "auto").
Proof.
  assert (Hsub : forall name,
             truthy (Demo.env name) = true -> truthy (Demo.envTwo name) = true).
  { intros name. unfold Demo.env, Demo.envTwo, envOf.
    destruct ("ANTHROPIC_API_KEY" =? name); [reflexivity | discriminate]. }
  destruct (configuration_monotone Demo.env Demo.envTwo Hsub) as [Hcfg Hincl].
  split; [apply Hcfg; reflexivity | exact Hincl].
Defined.

Lemma unknown_provider_names (provider : string) :
  PROVIDER_ENV_VARS provider = None ->
  (provider =? "ollama") = false /\ (provider =? "vertex") = false.
Proof.
  intros H. split.
  - destruct (String.eqb_spec provider "ollama") as [->|]; [discriminate H|reflexivity].
  - destruct (String.eqb_spec provider "vertex") as [->|]; [discriminate H|reflexivity].
Qed.

Lemma orElse_truthy (a b : option string) :
  truthy a = true -> orElse a b = a.
Proof. intros H. unfold orElse. now rewrite H. Qed.

Lemma orElse_falsy (a b : option string) :
  truthy a = false -> orElse a b = b.
Proof. intros H. unfold orElse. now rewrite H. Qed.

Lemma default_models_truthy (provider : string) :
  truthy (match DEFAULT_MODELS provider with
          | Some m => Some m
          | None => Some "gpt-4o"
          end) = true
  /\ orElse (DEFAULT_MODELS provider) (DEFAULT_MODELS "openai")
     = match DEFAULT_MODELS provider with
       | Some m => Some m
       | None => Some "gpt-4o"
       end.
Proof.
  change (DEFAULT_MODELS "openai") with (Some "gpt-4o").
  unfold DEFAULT_MODELS.
  repeat match goal with
         | |- context [if provider =? ?q then _ else _] =>
             destruct (provider =? q); [split; reflexivity|]
         end.
  split; reflexivity.
Qed.

(** X8. For an ASCII provider name that is not an inherited property
    name, [getModelForProvider] always yields a non-empty model name: the
    value of the variable [<PROVIDER>_MODEL] (upper case, first dash
    turned into an underscore) when that is set and non-empty, otherwise
    the provider's default, otherwise -- for a name without a default --
    ["gpt-4o"]. *)
Theorem model_always_defined (env : Env) (provider : string) :
  asciiOnly provider = true ->
  ~ In provider inheritedNames ->
  let key := replaceFirstDash (toUpperCase provider) ++ "_MODEL" in
  let fallback :=
    match DEFAULT_MODELS provider with
    | Some m => Some m
    | None => Some "gpt-4o"
    end in
  truthy (getModelForProvider env provider) = true
  /\ (truthy (env key) = true -> getModelForProvider env provider = env key)
  /\ (truthy (env key) = false -> getModelForProvider env provider = fallback).
Proof.
  intros _ _ key fallback.
  destruct (default_models_truthy provider) as [Htruthy Hdefault].
  assert (Hmodel : getModelForProvider env provider
                   = if truthy (env key) then env key else fallback).
  { unfold getModelForProvider. fold key.
    destruct (truthy (env key)) eqn:Hkey.
    - rewrite (orElse_truthy (env key) (DEFAULT_MODELS provider) Hkey).
      exact (orElse_truthy (env key) _ Hkey).
    - rewrite (orElse_falsy (env key)) by exact Hkey. exact Hdefault. }
  rewrite Hmodel.
  destruct (truthy (env key)) eqn:Hkey.
  - split; [exact Hkey|]. split; [reflexivity | discriminate].
  - split; [exact Htruthy|]. split; [discriminate | reflexivity].
Qed.

Lemma model_always_defined_witness :
  getModelForProvider (envOf [("GOOGLE_AI_MODEL", "gemini-2.0-flash")]) "google-ai"
  = Some "gemini-2.0-flash"
  /\ getModelForProvider (envOf [("GOOGLE_AI_MODEL", "")]) "google-ai"
     = Some "gemini-2.5-pro"
  /\ getModelForProvider Demo.env "no-such-provider" = Some "gpt-4o".
Proof.
  assert (Hgoogle : ~ In "google-ai" inheritedNames)
    by (simpl; intuition discriminate).
  assert (Hnone : ~ In "no-such-provider" inheritedNames)
    by (simpl; intuition discriminate).
  split; [|split].
  - apply (proj1 (proj2 (model_always_defined
                           (envOf [("GOOGLE_AI_MODEL", "gemini-2.0-flash")])
                           "google-ai" eq_refl Hgoogle))).
    reflexivity.
  - apply (proj2 (proj2 (model_always_defined
                           (envOf [("GOOGLE_AI_MODEL", "")]) "google-ai"
                           eq_refl Hgoogle))).
    reflexivity.
  - apply (proj2 (proj2 (model_always_defined Demo.env "no-such-provider"
                           eq_refl Hnone))).
    reflexivity.
Defined.

(** ** The probe and the status route *)

Section ProbeFacts.

Variables World Options : Type.
Variable callProvider : string -> Request Options -> World -> Outcome * World.
Variable fetchOllamaTags : World -> FetchOutcome * World.

Lemma probe_summary (env : Env) (providerName : string) (st : State World) :
  let run :=
    testProviderAvailability callProvider fetchOllamaTags env providerName st in
  usageStats (snd run) = usageStats st
  /\ network (snd run) = (network st ++ probeCalls env providerName)%list
  /\ (Status.error (fst run) = None <-> Status.available (fst run) = true)
  /\ Status.model (fst run) = getModelForProvider env providerName.
Proof.
  cbv zeta.
  unfold testProviderAvailability, testOllamaConnection, invokeProvider,
    probeCalls.
  destruct (providerName =? "ollama").
  - destruct (fetchOllamaTags (world st)) as [[err|[|]] w]; cbn;
      repeat split; auto; discriminate.
  - destruct (isProviderConfigured env providerName); cbn [negb].
    + destruct (callProvider providerName _ (world st)) as [[error|result] w];
        cbn; repeat split; auto; discriminate.
    + cbn. rewrite app_nil_r. repeat split; auto; discriminate.
Qed.

(** X9. For a provider name that is not an inherited property name, a
    probe leaves the usage counters alone and makes at most one
    outside call -- the fetch for ollama, one provider call for a
    configured provider, none for an unconfigured one; its [error] is
    null exactly when [available] is true, and its [model] is the
    provider's resolved model. *)
Theorem probe_effects (env : Env) (providerName : string) (st : State World) :
  ~ In providerName inheritedNames ->
  let run :=
    testProviderAvailability callProvider fetchOllamaTags env providerName st in
  usageStats (snd run) = usageStats st
  /\ network (snd run)
     = (network st
        ++ (if providerName =? "ollama" then [OllamaFetch]
            else if isProviderConfigured env providerName
                 then [ProviderCall providerName]
                 else []))%list
  /\ (Status.error (fst run) = None <-> Status.available (fst run) = true)
  /\ Status.model (fst run) = getModelForProvider env providerName.
Proof.
  intros _. exact (probe_summary env providerName st).
Qed.

(** X7. A name that is neither a key of [PROVIDER_ENV_VARS] nor an
    inherited property name counts as configured whatever the
    environment; probing it never reports
    missing variables but goes on to call the provider library. *)
Theorem unknown_provider_is_probed (env : Env) (providerName : string)
        (st : State World) :
  PROVIDER_ENV_VARS providerName = None ->
  ~ In providerName inheritedNames ->
  let run :=
    testProviderAvailability callProvider fetchOllamaTags env providerName st in
  isProviderConfigured env providerName = true
  /\ Status.configured (fst run) = true
  /\ network (snd run) = (network st ++ [ProviderCall providerName])%list.
Proof.
  intros Hmissing _. cbv zeta.
  destruct (unknown_provider_names _ Hmissing) as [Hlocal Hvertex].
  assert (Hcfg : isProviderConfigured env providerName = true).
  { unfold isProviderConfigured. now rewrite Hlocal, Hvertex, Hmissing. }
  split; [exact Hcfg|].
  destruct (probe_summary env providerName st) as (_ & Hnet & _).
  rewrite Hnet. unfold probeCalls. rewrite Hlocal, Hcfg.
  split; [|reflexivity].
  unfold testProviderAvailability, invokeProvider.
  rewrite Hlocal, Hcfg. cbn [negb].
  destruct (callProvider providerName _ (world st)) as [[error|result] w];
    reflexivity.
Qed.

End ProbeFacts.

Lemma unknown_provider_is_probed_witness :
  let run :=
    testProviderAvailability (Demo.worldOf Demo.everyoneFails) Demo.ollamaDown
                             (envOf []) "gemini" Demo.start in
  isProviderConfigured (envOf []) "gemini" = true
  /\ Status.configured (fst run) = true
  /\ network (snd run) = (network Demo.start ++ [ProviderCall "gemini"])%list.
Proof.
  apply (unknown_provider_is_probed Demo.World Demo.Options
           (Demo.worldOf Demo.everyoneFails) Demo.ollamaDown
           (envOf []) "gemini" Demo.start eq_refl).
  simpl. intuition discriminate.
Defined.

Lemma filter_head {A : Type} (f : A -> bool) (l : list A) :
  match filter f l with
  | x :: _ =>
      exists front back,
        l = (front ++ x :: back)%list
        /\ f x = true
        /\ forall y, In y front -> f y = false
  | [] => forall y, In y l -> f y = false
  end.
Proof.
  induction l as [|a l IH]; simpl; [contradiction|].
  destruct (f a) eqn:Ha.
  - exists [], l. split; [reflexivity|]. split; [exact Ha | contradiction].
  - destruct (filter f l) as [|x rest].
    + intros y [<-|Hin]; [exact Ha | now apply IH].
    + destruct IH as (front & back & -> & Hx & Hfront).
      exists (a :: front), back. split; [reflexivity|]. split; [exact Hx|].
      intros y [<-|Hin]; [exact Ha | now apply Hfront].
Qed.

Lemma cloud_probe_calls (env : Env) (names : list string) :
  ~ In "ollama" names ->
  flat_map (probeCalls env) names
  = map ProviderCall (filter (isProviderConfigured env) names).
Proof.
  induction names as [|p ps IH]; intros Hnotin; [reflexivity|].
  simpl. unfold probeCalls at 1.
  assert (Hp : (p =? "ollama") = false).
  { apply String.eqb_neq. intros ->. apply Hnotin. now left. }
  rewrite Hp, IH by (intros Hin; apply Hnotin; now right).
  destruct (isProviderConfigured env p); reflexivity.
Qed.

Section RouteFacts.

Variables World Options : Type.
Variable callProvider : string -> Request Options -> World -> Outcome * World.
Variable fetchOllamaTags : World -> FetchOutcome * World.

Lemma probeEach_effects (env : Env) (names : list string) :
  forall st : State World,
    let run := probeEach callProvider fetchOllamaTags env names st in
    usageStats (snd run) = usageStats st
    /\ network (snd run) = (network st ++ flat_map (probeCalls env) names)%list
    /\ map fst (fst run) = names.
Proof.
  induction names as [|p ps IH]; intros st; cbv zeta.
  - cbn. rewrite app_nil_r. auto.
  - cbn [probeEach flat_map].
    pose proof (probe_summary World Options callProvider fetchOllamaTags
                  env p st) as (Hstats & Hnet & _).
    destruct (testProviderAvailability callProvider fetchOllamaTags env p st)
      as [status st1].
    cbn [fst snd] in Hstats, Hnet.
    specialize (IH st1). cbv zeta in IH.
    destruct (probeEach callProvider fetchOllamaTags env ps st1)
      as [others st2].
    cbn [fst snd] in IH |- *. destruct IH as (IHstats & IHnet & IHkeys).
    split; [rewrite IHstats; exact Hstats|].
    split; [rewrite IHnet, Hnet, app_assoc; reflexivity|].
    simpl. now rewrite IHkeys.
Qed.

(** X10. The status route reports as [bestProvider] the first provider,
    in priority order, whose status is authenticated, and null exactly
    when none is. *)
Theorem status_best_provider (env : Env) (st : State World) :
  let report := fst (getStatus callProvider fetchOllamaTags env st) in
  let authenticated :=
    fun p => isAuthenticated (StatusReport.providers report) p in
  map fst (StatusReport.providers report) = ALL_PROVIDERS
  /\ match StatusReport.bestProvider report with
     | Some best =>
         exists before after,
           ALL_PROVIDERS = (before ++ best :: after)%list
           /\ authenticated best = true
           /\ forall p, In p before -> authenticated p = false
     | None => forall p, In p ALL_PROVIDERS -> authenticated p = false
     end.
Proof.
  cbv zeta. unfold getStatus.
  pose proof (probeEach_effects env ALL_PROVIDERS (logRequest st))
    as (_ & _ & Hkeys).
  destruct (probeEach callProvider fetchOllamaTags env ALL_PROVIDERS
              (logRequest st)) as [providers st1].
  cbn [fst snd StatusReport.providers StatusReport.bestProvider] in *.
  split; [exact Hkeys|].
  pose proof (filter_head (fun p => isAuthenticated providers p) ALL_PROVIDERS)
    as Hhead.
  destruct (filter (fun p => isAuthenticated providers p) ALL_PROVIDERS);
    exact Hhead.
Qed.

(** X11. When the status route answers with its report, it has counted
    one request and changed no other counter, and it has sent one test
    request to each configured cloud provider, in priority order, none to
    an unconfigured one, followed by one fetch to the local Ollama
    daemon. *)
Theorem status_outside_calls (env : Env) (st st' : State World)
        (report : StatusReport.t) :
  getStatus callProvider fetchOllamaTags env st = (report, st') ->
  network st'
  = (network st
     ++ map ProviderCall
          (filter (isProviderConfigured env)
                  ["google-ai"; "anthropic"; "openai"; "mistral"; "vertex";
                   "azure"; "huggingface"; "bedrock"])
     ++ [OllamaFetch])%list
  /\ usageStats st' = usageStats (logRequest st)
  /\ UsageStats.requests (usageStats st')
     = UsageStats.requests (usageStats st) + 1.
Proof.
  unfold getStatus.
  pose proof (probeEach_effects env ALL_PROVIDERS (logRequest st))
    as (Hstats & Hnet & _).
  destruct (probeEach callProvider fetchOllamaTags env ALL_PROVIDERS
              (logRequest st)) as [providers st1].
  cbn [fst snd] in *. intros Hrun. injection Hrun as _ <-.
  rewrite Hstats, Hnet. split; [|split; reflexivity].
  change (network (logRequest st)) with (network st). f_equal.
  change ALL_PROVIDERS
    with (["google-ai"; "anthropic"; "openai"; "mistral"; "vertex";
           "azure"; "huggingface"; "bedrock"] ++ ["ollama"])%list.
  rewrite flat_map_app, cloud_probe_calls; [reflexivity|].
  simpl. intuition discriminate.
Qed.

(** X12. The status route reports [fallbackEnabled] true exactly when
    [ENABLE_FALLBACK] is the string "true", while [generateWithProvider]
    leaves fallback on unless it is the string "false": for any other
    setting, unset included, the report says false although an explicit
    request for a provider is still followed by fallback candidates
    (ollama among them). *)
Theorem status_fallback_flag (env : Env) (providerName : string)
        (st : State World) :
  let report := fst (getStatus callProvider fetchOllamaTags env st) in
  (StatusReport.fallbackEnabled report = true
   <-> env "ENABLE_FALLBACK" = Some "true")
  /\ (providerName <> "auto" ->
      providerName <> "ollama" ->
      env "ENABLE_FALLBACK" <> Some "true" ->
      env "ENABLE_FALLBACK" <> Some "false" ->
      StatusReport.fallbackEnabled report = false
      /\ exists others,
          providersToTry env providerName = providerName :: others
          /\ In "ollama" others).
Proof.
  cbv zeta. unfold getStatus.
  destruct (probeEach callProvider fetchOllamaTags env ALL_PROVIDERS
              (logRequest st)) as [providers st1].
  cbn [fst StatusReport.fallbackEnabled]. unfold envIs.
  assert (Hflag : match env "ENABLE_FALLBACK" with
                  | Some v => v =? "true"
                  | None => false
                  end = true <-> env "ENABLE_FALLBACK" = Some "true").
  { destruct (env "ENABLE_FALLBACK") as [v|].
    - rewrite String.eqb_eq. split; congruence.
    - split; discriminate. }
  split; [exact Hflag|].
  intros Hauto Hlocal Hnottrue Hnotfalse. split.
  - destruct (match env "ENABLE_FALLBACK" with
              | Some v => v =? "true"
              | None => false
              end) eqn:E; [|reflexivity].
    exfalso. apply Hnottrue. now apply Hflag.
  - rewrite (explicit_candidates_with_fallback env providerName Hauto Hnotfalse).
    eexists. split; [reflexivity|].
    apply filter_In. split.
    + unfold ALL_PROVIDERS. simpl. tauto.
    + apply andb_true_iff. split; [|reflexivity].
      apply negb_true_iff, String.eqb_neq. congruence.
Qed.

End RouteFacts.

(** ** Counters across the routes *)

Section Accounting.

Variables World Options : Type.
Variable now : World -> Z.
Variable callProvider : string -> Request Options -> World -> Outcome * World.

Lemma benchmarkEach_effects (benchmarkOptions : Options) (env : Env)
      (names : list string) :
  forall st : State World,
    let run := benchmarkEach now callProvider benchmarkOptions env names st in
    map fst (fst run) = names
    /\ UsageStats.requests (usageStats (snd run))
       = UsageStats.requests (usageStats st)
    /\ UsageStats.errors (usageStats (snd run))
       = UsageStats.errors (usageStats st)
    /\ UsageStats.totalTokens (usageStats (snd run))
       = UsageStats.totalTokens (usageStats st) + benchmarkTokens (fst run).
Proof.
  induction names as [|p ps IH]; intros st; cbv zeta.
  - cbn. repeat split; auto.
  - cbn [benchmarkEach].
    destruct (generate_summary World Options now callProvider env p
                "Write a haiku about artificial intelligence."
                benchmarkOptions st)
      as [(K & text & result & w' & _ & _ & E)|(msgs & w' & E)];
      rewrite E; clear E.
    + pose proof (updateUsageStats_effect (Payload.usage result)
                    (afterCalls st w' (firstn K (providersToTry env p))))
        as (Hreq & Herr & _ & Htok).
      cbv zeta in Hreq, Herr, Htok.
      specialize (IH (updateUsageStats (Payload.usage result)
                        (afterCalls st w' (firstn K (providersToTry env p))))).
      cbv zeta in IH.
      destruct (benchmarkEach now callProvider benchmarkOptions env ps _)
        as [others st2].
      cbn [fst snd] in IH |- *.
      destruct IH as (IHkeys & IHreq & IHerr & IHtok).
      split; [simpl; now rewrite IHkeys|].
      split; [rewrite IHreq; exact Hreq|].
      split; [rewrite IHerr; exact Herr|].
      rewrite IHtok, Htok. cbn [benchmarkTokens Generated.usage].
      cbn [afterCalls usageStats]. lia.
    + specialize (IH (afterCalls st w' (providersToTry env p))).
      cbv zeta in IH.
      destruct (benchmarkEach now callProvider benchmarkOptions env ps _)
        as [others st2].
      cbn [fst snd] in IH |- *.
      destruct IH as (IHkeys & IHreq & IHerr & IHtok).
      split; [simpl; now rewrite IHkeys|].
      split; [rewrite IHreq; reflexivity|].
      split; [rewrite IHerr; reflexivity|].
      rewrite IHtok. reflexivity.
Qed.

(** X13. [POST /api/benchmark] answers with one entry per provider of
    the priority list, in order.  It counts as one request, never
    increments [errors] however many providers fail, and adds to
    [totalTokens] exactly the tokens reported by its successful
    entries. *)
Theorem benchmark_accounting (benchmarkOptions : Options) (env : Env)
        (st : State World) :
  let run := postBenchmark now callProvider benchmarkOptions env st in
  let before := usageStats st in
  let after := usageStats (snd run) in
  map fst (fst run) = ALL_PROVIDERS
  /\ UsageStats.requests after = UsageStats.requests before + 1
  /\ UsageStats.errors after = UsageStats.errors before
  /\ UsageStats.totalTokens after
     = UsageStats.totalTokens before + benchmarkTokens (fst run).
Proof.
  exact (benchmarkEach_effects benchmarkOptions env ALL_PROVIDERS
           (logRequest st)).
Qed.



End Accounting.

(** ** Status flags against candidate selection *)

Section StatusAgainstSelection.

Variables World Options : Type.
Variable callProvider : string -> Request Options -> World -> Outcome * World.
Variable fetchOllamaTags : World -> FetchOutcome * World.

(** X16. For every provider but ollama the [configured] flag of the
    probe is the configuration check that candidate selection uses.  For
    ollama the flag says whether the daemon answered the fetch, while
    selection counts ollama as configured regardless: it is an ["auto"]
    candidate even when its status says not configured. *)
Theorem status_configured_against_selection (env : Env) (providerName : string)
        (st : State World) :
  ~ In providerName inheritedNames ->
  let probe name :=
    fst (testProviderAvailability callProvider fetchOllamaTags env name st) in
  (providerName <> "ollama" ->
   Status.configured (probe providerName)
   = isProviderConfigured env providerName)
  /\ Status.configured (probe "ollama")
     = match fst (fetchOllamaTags (world st)) with
       | FetchReturns ok => ok
       | FetchThrows _ => false
       end
  /\ In "ollama" (providersToTry env "auto").
Proof.
  intros _ probe. subst probe. cbv beta. split; [|split].
  - intros Hlocal. unfold testProviderAvailability, invokeProvider.
    apply String.eqb_neq in Hlocal. rewrite Hlocal.
    destruct (isProviderConfigured env providerName); cbn [negb].
    + destruct (callProvider providerName _ (world st)) as [[error|result] w];
        reflexivity.
    + reflexivity.
  - unfold testProviderAvailability, testOllamaConnection.
    change ("ollama" =? "ollama") with true. cbv iota.
    destruct (fetchOllamaTags (world st)) as [[err|ok] w]; reflexivity.
  - destruct (auto_candidates_end_with_ollama env) as [front E].
    rewrite E. apply in_or_app. right. now left.
Qed.

End StatusAgainstSelection.

Lemma status_configured_against_selection_witness :
  let probe name :=
    fst (testProviderAvailability (Demo.worldOf Demo.everyoneFails)
           Demo.ollamaDown Demo.env name Demo.start) in
  Status.configured (probe "azure") = false
  /\ Status.configured (probe "ollama") = false
  /\ In "ollama" (providersToTry Demo.env "auto").
Proof.
  assert (Hname : ~ In "azure" inheritedNames)
    by (simpl; intuition discriminate).
  destruct (status_configured_against_selection Demo.World Demo.Options
              (Demo.worldOf Demo.everyoneFails) Demo.ollamaDown
              Demo.env "azure" Demo.start Hname) as (Hcloud & Hlocal & Hin).
  split; [|split].
  - rewrite Hcloud; [reflexivity | discriminate].
  - rewrite Hlocal. reflexivity.
  - exact Hin.
Defined.

Lemma probe_effects_witness :
  let run :=
    testProviderAvailability (Demo.worldOf Demo.rateLimited) Demo.ollamaUp
                             Demo.env "anthropic" Demo.start in
  usageStats (snd run) = UsageStats.initial
  /\ network (snd run) = [ProviderCall "anthropic"]
  /\ Status.error (fst run) <> None
  /\ Status.available (fst run) = false.
Proof.
  assert (Hname : ~ In "anthropic" inheritedNames)
    by (simpl; intuition discriminate).
  destruct (probe_effects Demo.World Demo.Options
              (Demo.worldOf Demo.rateLimited) Demo.ollamaUp
              Demo.env "anthropic" Demo.start Hname)
    as (Hstats & Hnet & Herror & _).
  split; [exact Hstats|]. split; [exact Hnet|].
  assert (Hdown : Status.available
                    (fst (testProviderAvailability
                            (Demo.worldOf Demo.rateLimited) Demo.ollamaUp
                            Demo.env "anthropic" Demo.start)) = false)
    by reflexivity.
  split; [|exact Hdown].
  intros Hnone. apply Herror in Hnone. rewrite Hdown in Hnone.
  discriminate Hnone.
Defined.

Lemma status_fallback_flag_witness :
  StatusReport.fallbackEnabled
    (fst (getStatus (Demo.worldOf Demo.everyoneFails) Demo.ollamaDown
            Demo.env Demo.start)) = false
  /\ exists others,
      providersToTry Demo.env "openai" = "openai" :: others
      /\ In "ollama" others.
Proof.
  apply (proj2 (status_fallback_flag Demo.World Demo.Options
                  (Demo.worldOf Demo.everyoneFails) Demo.ollamaDown
                  Demo.env "openai" Demo.start));
    discriminate.
Defined.

Lemma fallback_used_iff_other_provider_witness :
  exists generated st',
    generateWithProvider Demo.now (Demo.worldOf Demo.anthropicAnswers)
                         Demo.env "openai" "Hi" tt Demo.start
    = (Resolved generated, st')
    /\ Generated.provider generated = "anthropic"
    /\ (Generated.fallbackUsed generated = false
        <-> Generated.provider generated = "openai").
Proof.
  eexists. eexists. split; [reflexivity|]. split; [reflexivity|].
  apply (proj2 (fallback_used_iff_other_provider Demo.World Demo.Options
                  Demo.now (Demo.worldOf Demo.anthropicAnswers)
                  Demo.env "openai" "Hi" tt Demo.start _ _ eq_refl)).
  discriminate.
Defined.

(** ** The error categories of the test runner *)

Lemma mapChars_append (f : ascii -> ascii) (a b : string) :
  mapChars f (a ++ b) = mapChars f a ++ mapChars f b.
Proof.
  induction a as [|c a IH]; simpl; [reflexivity | now rewrite IH].
Qed.

Lemma includes_lower (variant msg : string) :
  Substring variant msg ->
  includes (toLowerCase variant) (toLowerCase msg) = true.
Proof.
  intros (pre & post & ->). apply includes_iff_Substring.
  exists (toLowerCase pre), (toLowerCase post).
  unfold toLowerCase. now rewrite !mapChars_append.
Qed.

(** X17. [categorizeError] ignores letter case: a message containing
    "api key", "authentication" or "unauthorized" in any mix of upper and
    lower case is an AUTHENTICATION_ERROR, whatever else it contains.  In
    particular every message the probe takes for an authentication
    failure because of the words "Unauthorized", "Authentication" or
    "API key" is one here too. *)
Theorem categorizeError_authentication (variant msg : string) :
  In (toLowerCase variant) ["api key"; "authentication"; "unauthorized"] ->
  Substring variant msg ->
  categorizeError msg = AUTHENTICATION_ERROR
  /\ (In variant ["API key"; "Authentication"; "Unauthorized"] ->
      classifyError msg = Authentication).
Proof.
  intros Hpattern Hsub.
  pose proof (includes_lower variant msg Hsub) as Hlower.
  split.
  - unfold categorizeError. cbv zeta.
    destruct Hpattern as [E|[E|[E|[]]]]; rewrite <- E in Hlower;
      rewrite Hlower; rewrite ?orb_true_r; reflexivity.
  - intros Hexact. apply includes_iff_Substring in Hsub.
    unfold classifyError.
    destruct Hexact as [E|[E|[E|[]]]]; rewrite <- E in Hsub;
      rewrite Hsub; rewrite ?orb_true_r; reflexivity.
Qed.

Lemma categorizeError_authentication_witness :
  categorizeError "Request failed: UNAUTHORIZED (bad token)"
  = AUTHENTICATION_ERROR.
Proof.
  refine (proj1 (categorizeError_authentication
                   "UNAUTHORIZED" "Request failed: UNAUTHORIZED (bad token)"
                   _ _)).
  - right. right. left. reflexivity.
  - exists "Request failed: ", " (bad token)". reflexivity.
Defined.

(** ** The MCP server registry *)

Lemma find_assign_same (serverName : string) (config : Mcp.ServerConfig)
      (servers : list (string * Mcp.ServerConfig)) :
  Mcp.find (Mcp.assign serverName config servers) serverName = Some config.
Proof.
  induction servers as [|[key old] rest IH]; simpl.
  - now rewrite String.eqb_refl.
  - destruct (key =? serverName) eqn:E; simpl; rewrite E; [reflexivity|exact IH].
Qed.

Lemma find_assign_other (serverName other : string)
      (config : Mcp.ServerConfig) (servers : list (string * Mcp.ServerConfig)) :
  other <> serverName ->
  Mcp.find (Mcp.assign serverName config servers) other
  = Mcp.find servers other.
Proof.
  intros Hother. induction servers as [|[key old] rest IH]; simpl.
  - destruct (String.eqb_spec serverName other); [congruence|reflexivity].
  - destruct (String.eqb_spec key serverName) as [->|Hkey]; simpl.
    + destruct (String.eqb_spec serverName other); [congruence|reflexivity].
    + destruct (key =? other); [reflexivity|exact IH].
Qed.

Lemma remove_assign_absent (serverName : string) (config : Mcp.ServerConfig)
      (servers : list (string * Mcp.ServerConfig)) :
  Mcp.find servers serverName = None ->
  Mcp.remove serverName (Mcp.assign serverName config servers) = servers.
Proof.
  induction servers as [|[key old] rest IH]; simpl.
  - intros _. now rewrite String.eqb_refl.
  - destruct (key =? serverName) eqn:E; [discriminate|].
    intros Habsent. simpl. rewrite E, (IH Habsent). reflexivity.
Qed.

Lemma find_remove_same (serverName : string)
      (servers : list (string * Mcp.ServerConfig)) :
  Mcp.find (Mcp.remove serverName servers) serverName = None.
Proof.
  induction servers as [|[key old] rest IH]; simpl; [reflexivity|].
  destruct (key =? serverName) eqn:E; simpl; [exact IH|].
  rewrite E. exact IH.
Qed.

Lemma find_remove_other (serverName other : string)
      (servers : list (string * Mcp.ServerConfig)) :
  other <> serverName ->
  Mcp.find (Mcp.remove serverName servers) other = Mcp.find servers other.
Proof.
  intros Hother. induction servers as [|[key old] rest IH]; simpl; [reflexivity|].
  destruct (String.eqb_spec key serverName) as [->|Hkey]; simpl.
  - destruct (String.eqb_spec serverName other); [congruence|exact IH].
  - destruct (key =? other); [reflexivity|exact IH].
Qed.

Lemma lookup_some_registry (config : Mcp.Config) (serverName : string)
      (existing : Mcp.ServerConfig) :
  Mcp.lookup config serverName = Some existing ->
  exists servers,
    config = Mcp.Registry servers
    /\ Mcp.find servers serverName = Some existing.
Proof.
  destruct config as [servers| | |]; simpl; try discriminate.
  intros H. now exists servers.
Qed.

(** X18. Installing one of the five popular servers on a writable disk
    succeeds when the config file is missing, unreadable, or holds a
    registry (whether or not the registry already has the name): the
    registry then maps the name to the built-in configuration, replacing
    any earlier entry, and every other name is as before.  When the file
    parses to a value without a registry ([null], [{}], a null
    [mcpServers]) the install fails in its [catch] with the TypeError's
    message and the disk is left as it was. *)
Theorem install_then_lookup (serverName : string) (config : Mcp.ServerConfig)
        (disk : Mcp.Disk) :
  Mcp.popularServers serverName = Some config ->
  Mcp.writeError disk = None ->
  let run := Mcp.installMCPServer serverName disk in
  (forall servers,
      Mcp.loadMCPConfig disk = Mcp.Registry servers ->
      fst run
      = Mcp.Success (Some config)
                    ("MCP server '" ++ serverName ++ "' installed successfully")
      /\ Mcp.lookup (Mcp.loadMCPConfig (snd run)) serverName = Some config
      /\ forall other,
          other <> serverName ->
          Mcp.lookup (Mcp.loadMCPConfig (snd run)) other
          = Mcp.lookup (Mcp.loadMCPConfig disk) other)
  /\ ((forall servers, Mcp.loadMCPConfig disk <> Mcp.Registry servers) ->
      run = (Mcp.Failure
               (Mcp.accessError true (Mcp.loadMCPConfig disk) serverName),
             disk)).
Proof.
  intros Hpopular Hwritable. cbv zeta.
  unfold Mcp.installMCPServer, Mcp.saveMCPConfig.
  rewrite Hpopular, Hwritable. split.
  - intros servers Hload. rewrite Hload. cbn [fst snd].
    split; [reflexivity|].
    unfold Mcp.loadMCPConfig. cbn [Mcp.file Mcp.lookup].
    split; [apply find_assign_same|].
    intros other Hother. now apply find_assign_other.
  - intros Hnone.
    destruct (Mcp.loadMCPConfig disk) as [servers| | |]; try reflexivity.
    exfalso. exact (Hnone servers eq_refl).
Qed.

Lemma install_then_lookup_witness :
  (let run := Mcp.installMCPServer "github" Demo.disk in
   Mcp.lookup (Mcp.loadMCPConfig (snd run)) "github"
   = Some (Mcp.npx "github" ["-y"; "@modelcontextprotocol/server-github"])
   /\ Mcp.lookup (Mcp.loadMCPConfig (snd run)) "notes" = Some Demo.notesServer)
  /\ Mcp.installMCPServer "github" Demo.emptyObjectDisk
     = (Mcp.Failure "Cannot set properties of undefined (setting 'github')",
        Demo.emptyObjectDisk).
Proof.
  split.
  - destruct (proj1 (install_then_lookup "github" _ Demo.disk eq_refl eq_refl)
                _ eq_refl) as (_ & Hsame & Hother).
    split; [exact Hsame|].
    rewrite Hother; [reflexivity | discriminate].
  - apply (proj2 (install_then_lookup "github" _ Demo.emptyObjectDisk
                    eq_refl eq_refl)).
    intros servers. discriminate.
Defined.

(** X19. When the config file is missing, unreadable or holds a registry
    without the name, installing a popular server on a writable disk and
    then removing it gives back the registry as it was (a missing or
    unreadable file is left holding the empty registry), and both steps
    succeed. *)
Theorem install_remove_round_trip (serverName : string)
        (config : Mcp.ServerConfig) (servers : list (string * Mcp.ServerConfig))
        (disk : Mcp.Disk) :
  Mcp.popularServers serverName = Some config ->
  Mcp.writeError disk = None ->
  Mcp.loadMCPConfig disk = Mcp.Registry servers ->
  Mcp.lookup (Mcp.loadMCPConfig disk) serverName = None ->
  fst (Mcp.installMCPServer serverName disk)
  = Mcp.Success (Some config)
                ("MCP server '" ++ serverName ++ "' installed successfully")
  /\ Mcp.removeMCPServer serverName (snd (Mcp.installMCPServer serverName disk))
     = (Mcp.Success None
                    ("MCP server '" ++ serverName ++ "' removed successfully"),
        {| Mcp.file := Mcp.FileHolds (Mcp.Registry servers);
           Mcp.writeError := None |}).
Proof.
  intros Hpopular Hwritable Hload Habsent.
  rewrite Hload in Habsent. cbn [Mcp.lookup] in Habsent.
  unfold Mcp.installMCPServer, Mcp.saveMCPConfig.
  rewrite Hpopular, Hwritable, Hload. cbn [fst snd].
  split; [reflexivity|].
  unfold Mcp.removeMCPServer, Mcp.saveMCPConfig, Mcp.loadMCPConfig.
  cbn [Mcp.file Mcp.writeError].
  rewrite find_assign_same, (remove_assign_absent _ _ _ Habsent).
  reflexivity.
Qed.

Lemma install_remove_round_trip_witness :
  Mcp.removeMCPServer "postgres" (snd (Mcp.installMCPServer "postgres" Demo.disk))
  = (Mcp.Success None "MCP server 'postgres' removed successfully", Demo.disk).
Proof.
  exact (proj2 (install_remove_round_trip "postgres" _ _ Demo.disk
                  eq_refl eq_refl eq_refl eq_refl)).
Defined.



(** X22. Removing a server the registry has, on a writable disk,
    succeeds; afterwards the name is gone, every other name is as before,
    and removing it a second time fails with "not found" and changes
    nothing. *)
Theorem remove_then_lookup (serverName : string) (existing : Mcp.ServerConfig)
        (disk : Mcp.Disk) :
  ~ In serverName inheritedNames ->
  Mcp.lookup (Mcp.loadMCPConfig disk) serverName = Some existing ->
  Mcp.writeError disk = None ->
  let run := Mcp.removeMCPServer serverName disk in
  fst run
  = Mcp.Success None ("MCP server '" ++ serverName ++ "' removed successfully")
  /\ Mcp.lookup (Mcp.loadMCPConfig (snd run)) serverName = None
  /\ (forall other,
         other <> serverName ->
         Mcp.lookup (Mcp.loadMCPConfig (snd run)) other
         = Mcp.lookup (Mcp.loadMCPConfig disk) other)
  /\ Mcp.removeMCPServer serverName (snd run)
     = (Mcp.Failure ("MCP server '" ++ serverName ++ "' not found"), snd run).
Proof.
  intros _ Hexisting Hwritable. cbv zeta.
  destruct (lookup_some_registry _ _ _ Hexisting) as (servers & Hload & Hfind).
  assert (Hrun : Mcp.removeMCPServer serverName disk
                 = (Mcp.Success None ("MCP server '" ++ serverName
                                      ++ "' removed successfully"),
                    {| Mcp.file :=
                         Mcp.FileHolds
                           (Mcp.Registry (Mcp.remove serverName servers));
                       Mcp.writeError := None |})).
  { unfold Mcp.removeMCPServer, Mcp.saveMCPConfig.
    now rewrite Hload, Hfind, Hwritable. }
  rewrite Hrun, Hload. cbn [fst snd].
  split; [reflexivity|].
  unfold Mcp.removeMCPServer, Mcp.loadMCPConfig. cbn [Mcp.file Mcp.lookup].
  split; [apply find_remove_same|].
  split; [intros other Hother; now apply find_remove_other|].
  now rewrite find_remove_same.
Qed.

Lemma remove_then_lookup_witness :
  let run := Mcp.removeMCPServer "notes" Demo.disk in
  fst run = Mcp.Success None "MCP server 'notes' removed successfully"
  /\ Mcp.lookup (Mcp.loadMCPConfig (snd run)) "notes" = None.
Proof.
  assert (Hname : ~ In "notes" inheritedNames)
    by (simpl; intuition discriminate).
  destruct (remove_then_lookup "notes" Demo.notesServer Demo.disk Hname
              eq_refl eq_refl) as (Hresult & Hgone & _).
  split; [exact Hresult | exact Hgone].
Defined.

(** ** Further runs in the concrete world *)

Lemma generate_never_resolves_undefined_witness :
  exists generated,
    fst (generateWithProvider Demo.now (Demo.worldOf Demo.anthropicAnswers)
           Demo.env "openai" "Hi" tt Demo.start)
    = Resolved generated
    /\ nonEmpty (Generated.content generated) = true
    /\ In (Generated.provider generated) (providersToTry Demo.env "openai").
Proof.
  eexists. split; [reflexivity|].
  apply (proj2 (generate_never_resolves_undefined Demo.World Demo.Options
                  Demo.now (Demo.worldOf Demo.anthropicAnswers)
                  Demo.env "openai" "Hi" tt Demo.start)).
  reflexivity.
Defined.

Lemma generate_calls_prefix_witness :
  let cands := providersToTry Demo.env "openai" in
  let run :=
    generateWithProvider Demo.now (Demo.worldOf Demo.everyoneFails)
                         Demo.env "openai" "Hi" tt Demo.start in
  exists k,
    network (snd run)
    = (network Demo.start ++ map ProviderCall (firstn k cands))%list
    /\ k = length cands.
Proof.
  cbv zeta.
  destruct (generate_calls_prefix Demo.World Demo.Options Demo.now
              (Demo.worldOf Demo.everyoneFails) Demo.env "openai" "Hi" tt
              Demo.start) as (k & _ & Hnet & _ & Hrejected).
  exists k. split; [exact Hnet|].
  apply (Hrejected "connect ECONNREFUSED 127.0.0.1:11434"). reflexivity.
Defined.

Lemma status_outside_calls_witness :
  let run :=
    getStatus (Demo.worldOf Demo.everyoneFails) Demo.ollamaDown
              Demo.env Demo.start in
  network (snd run) = [ProviderCall "anthropic"; OllamaFetch]
  /\ UsageStats.requests (usageStats (snd run)) = 1.
Proof.
  cbv zeta.
  destruct (status_outside_calls Demo.World Demo.Options
              (Demo.worldOf Demo.everyoneFails) Demo.ollamaDown
              Demo.env Demo.start _ _ eq_refl) as (Hnet & _ & Hrequests).
  split; [exact Hnet | exact Hrequests].
Defined.
